(** * SiraBot DrissionPage bridge: a shallow embedding and its properties

    The development embeds the two Python modules of
    [src/browser/drission]:

    - [stealth_helpers.py]  (random delays, Bezier mouse paths, scroll
      jitter, human typing), in [Module Stealth];
    - [drission_bridge.py]  (the JSON-RPC handlers, the dispatch table and
      the transport loop), in [Module Bridge].

    Modelling choices, all visible in the definitions below.

    - JSON values and Python dictionaries are the inductive [json]; objects
      are association lists in insertion order.
    - Python [float]s are exact rationals ([Q]): rounding error, overflow
      and NaN of IEEE doubles are outside the model.
    - The two globals [_page] and [_config], the lines written to stdout,
      the log of calls made on the browser driver and of sleeps, and the
      position in the random stream form the record [world].
    - Code runs in the monad [M A = world -> (exn + A) * world]: a Python
      exception is [inl], and the world reached when it was raised is kept,
      as in Python.
    - Everything the interpreter, its libraries and the browser decide is
      read from an [environment]: the outcome of each driver call (a value
      or an exception, depending on the history), the raw random draws,
      [json.loads], [traceback.format_exc], and a few builtins. *)

From Stdlib Require Import ZArith QArith Qround Qpower Qfield.
From Stdlib Require Import String Ascii List Bool Lia Lqa DecimalString.
Import ListNotations.

Local Open Scope string_scope.
Local Open Scope Z_scope.

(* ================================================================== *)
(** * JSON values and the Python operations applied to them            *)
(* ================================================================== *)

#[local] Set Warnings "-register-all".

Inductive json : Type :=
| JNull
| JBool (b : bool)
| JInt (z : Z)
| JFloat (q : Q)
| JStr (s : string)
| JArr (items : list json)
| JObj (fields : list (string * json)).

(** Python exceptions: the class (as far as an [except] clause of the
    source tells classes apart) and the message [str(e)]. *)
Inductive exn_kind :=
| ValueError | TypeError | RuntimeError | ImportError | AttributeError
| ZeroDivisionError | IndexError | OtherException.

Record exn := Exn { exn_class : exn_kind; exn_msg : string }.

Definition str_exn (e : exn) : string := exn_msg e.

Module Py.

Fixpoint assoc (k : string) (l : list (string * json)) : option json :=
  match l with
  | [] => None
  | (k', v) :: rest => if String.eqb k k' then Some v else assoc k rest
  end.

(** [d.get(k, default)]; only dictionaries have [get]. *)
Definition get (d : json) (k : string) (default : json) : exn + json :=
  match d with
  | JObj fields =>
      match assoc k fields with
      | Some v => inr v
      | None => inr default
      end
  | _ => inl (Exn AttributeError "object has no attribute 'get'")
  end.

(** Truth value of a JSON value, as [if v:] tests it. *)
Definition truthy (v : json) : bool :=
  match v with
  | JNull => false
  | JBool b => b
  | JInt z => negb (z =? 0)
  | JFloat q => negb (Qeq_bool q 0)
  | JStr s => negb (String.eqb s "")
  | JArr l => match l with [] => false | _ => true end
  | JObj l => match l with [] => false | _ => true end
  end.

(** [v == "literal"]. *)
Definition eq_str (v : json) (s : string) : bool :=
  match v with
  | JStr s' => String.eqb s' s
  | _ => false
  end.

(** [int(x)] on a float truncates towards zero. *)
Definition trunc (q : Q) : Z := Z.quot (Qnum q) (Z.pos (Qden q)).

(** [round(x)]: to the nearest integer, ties to the even one. *)
Definition round (x : Q) : Z :=
  let f := Qfloor x in
  match Qcompare (x - inject_Z f) (1 # 2) with
  | Lt => f
  | Gt => f + 1
  | Eq => if Z.even f then f else f + 1
  end.

(** [max(a, b)] keeps its first argument unless the second is larger. *)
Definition max (a b : Q) : Q := if Qle_bool b a then a else b.

(** [range(n)]. *)
Definition range (n : Z) : list Z := map Z.of_nat (seq 0 (Z.to_nat n)).

(** Numeric reading of a JSON value in arithmetic with a float. *)
Definition num (v : json) : option Q :=
  match v with
  | JInt z => Some (inject_Z z)
  | JFloat q => Some q
  | JBool b => Some (if b then 1%Q else 0%Q)
  | _ => None
  end.

Definition decimal (z : Z) : string := NilZero.string_of_int (Z.to_int z).

Fixpoint chars (s : string) : list json :=
  match s with
  | EmptyString => []
  | String c rest => JStr (String c EmptyString) :: chars rest
  end.

(** Iteration over a value ([for x in v]). *)
Definition iter (v : json) : exn + list json :=
  match v with
  | JStr s => inr (chars s)
  | JArr l => inr l
  | JObj fields => inr (map (fun kv => JStr (fst kv)) fields)
  | _ => inl (Exn TypeError "object is not iterable")
  end.

Fixpoint has_eq_sign (s : string) : bool :=
  match s with
  | EmptyString => false
  | String c rest => if Ascii.eqb c "="%char then true else has_eq_sign rest
  end.

(** ["=" in arg]. *)
Definition contains_eq (arg : json) : exn + bool :=
  match arg with
  | JStr s => inr (has_eq_sign s)
  | JArr l => inr (existsb (fun x => eq_str x "=") l)
  | JObj fields => inr (existsb (fun kv => String.eqb (fst kv) "=") fields)
  | _ => inl (Exn TypeError "argument is not iterable")
  end.

(** [s.split("=", 1)] on a string that contains ["="]. *)
Fixpoint split_eq (s : string) : string * string :=
  match s with
  | EmptyString => (EmptyString, EmptyString)
  | String c rest =>
      if Ascii.eqb c "="%char then (EmptyString, rest)
      else let '(k, v) := split_eq rest in (String c k, v)
  end.

Definition split_arg (arg : json) : exn + (json * json) :=
  match arg with
  | JStr s => let '(k, v) := split_eq s in inr (JStr k, JStr v)
  | _ => inl (Exn AttributeError "object has no attribute 'split'")
  end.





End Py.

(* ================================================================== *)
(** * The browser driver, the world and the monad of effects           *)
(* ================================================================== *)

(** Opaque handles handed out by DrissionPage. *)
Inductive page := Page (id : nat).
Inductive elem := Elem (id : nat).
Inductive rect := Rect (id : nat).
Inductive options := Options (id : nat).

(** The calls the two modules make on DrissionPage, indexed by the type of
    what a call returns when it does not raise. *)
Inductive dcall : Type -> Type :=
| ImportDrissionPage : dcall unit
| NewChromiumOptions : dcall options
| OptHeadless (co : options) : dcall unit
| OptSetBrowserPath (co : options) (path : json) : dcall unit
| OptSetProxy (co : options) (proxy : json) : dcall unit
| OptSetArgument (co : options) (key : json) (val : option json) : dcall unit
| NewChromiumPage (co : options) : dcall page
| PageGet (p : page) (url : json) : dcall unit
| PageUrl (p : page) : dcall json
| PageTitle (p : page) : dcall json
| PageEle (p : page) (selector : json) : dcall (option elem)
| PageGetScreenshot (p : page) (as_bytes : json) (full_page : option json)
  : dcall string
| PageRunJs (p : page) (code : json) : dcall json
| PageQuit (p : page) : dcall unit
| ActionsMove (p : page) (x y : Z) : dcall unit
| ActionsMoveTo (p : page) (x y : Z) : dcall unit
| ActionsClick (p : page) (x y : Z) : dcall unit
| ScrollDown (p : page) (pixels : Z) : dcall unit
| ScrollUp (p : page) (pixels : Z) : dcall unit
| ScrollToTop (p : page) : dcall unit
| ScrollToBottom (p : page) : dcall unit
| WaitEleDisplayed (p : page) (selector : json) (timeout : Q) : dcall unit
| ElemRect (e : elem) : dcall (option rect)
| RectMidpoint (r : rect) : dcall (Q * Q)
| ElemText (e : elem) : dcall json
| ElemClick (e : elem) : dcall unit
| ElemClear (e : elem) : dcall unit
| ElemInput (e : elem) (text : json) : dcall unit
| ElemType (e : elem) (text : json) : dcall unit.

(** What the process does to the outside, in order: driver calls and
    [time.sleep]. *)
Inductive event : Type :=
| EvCall {T : Type} (c : dcall T)
| EvSleep (seconds : Q).

Record world := World {
  w_page : option page;       (* the global _page; None is Python's None *)
  w_config : json;            (* the global _config *)
  w_out : list json;          (* the lines written to stdout, oldest first *)
  w_trace : list event;       (* driver calls and sleeps, oldest first *)
  w_rng : nat                 (* raw random draws consumed so far *)
}.

Record environment := Environment {
  (* outcome of a driver call, given everything done before it *)
  drv : forall T : Type, list event -> dcall T -> exn + T;
  (* the raw draws of the process-wide random generator *)
  rnd : nat -> N;
  json_loads : string -> exn + json;
  format_exc : exn -> string;
  (* str() of a value that is not a string, int, bool or None *)
  py_repr : json -> string;
  (* int() of a string *)
  int_of_str : string -> option Z;
  math_sqrt : Q -> Q;
  b64encode : string -> string
}.

Definition M (A : Type) : Type := world -> (exn + A) * world.

Definition ret {A} (a : A) : M A := fun w => (inr a, w).

Definition bind {A B} (m : M A) (k : A -> M B) : M B :=
  fun w =>
    match m w with
    | (inr a, w') => k a w'
    | (inl e, w') => (inl e, w')
    end.

Definition raise {A} (e : exn) : M A := fun w => (inl e, w).

(** [try: m  except Exception as e: h e]. *)
Definition try_except {A} (m : M A) (h : exn -> M A) : M A :=
  fun w =>
    match m w with
    | (inr a, w') => (inr a, w')
    | (inl e, w') => h e w'
    end.

(** A pure computation that may raise. *)
Definition lift {A} (r : exn + A) : M A := fun w => (r, w).

Declare Scope monad_scope.
Delimit Scope monad_scope with monad.
Notation "x <- m ;; k" := (bind m (fun x => k))
  (at level 61, m at next level, right associativity) : monad_scope.
Notation "' p <- m ;; k" := (bind m (fun x => let p := x in k))
  (at level 61, p pattern, m at next level, right associativity) : monad_scope.
Notation "m ;;; k" := (bind m (fun _ => k))
  (at level 61, right associativity) : monad_scope.
Local Open Scope monad_scope.

Definition set_page (p : option page) : M unit :=
  fun w => (inr tt, World p (w_config w) (w_out w) (w_trace w) (w_rng w)).

Definition set_config (c : json) : M unit :=
  fun w => (inr tt, World (w_page w) c (w_out w) (w_trace w) (w_rng w)).

Definition get_page_opt : M (option page) := fun w => (inr (w_page w), w).

Definition get_config : M json := fun w => (inr (w_config w), w).

Definition log (ev : event) (w : world) : world :=
  World (w_page w) (w_config w) (w_out w) (w_trace w ++ [ev]) (w_rng w).

Definition write_line (line : json) : M unit :=
  fun w => (inr tt,
            World (w_page w) (w_config w) (w_out w ++ [line]) (w_trace w) (w_rng w)).

Inductive loop_ctl := Continue | Break.

(** [for x in l: body x], where the body may [break]. *)
Fixpoint for_each {A} (l : list A) (body : A -> M loop_ctl) : M unit :=
  match l with
  | [] => ret tt
  | x :: rest =>
      c <- body x ;;
      match c with
      | Continue => for_each rest body
      | Break => ret tt
      end
  end.

(** [ys = []; for x in l: ys.append(f x)] with an effectful [f]. *)
Fixpoint map_m {A B} (f : A -> M B) (l : list A) : M (list B) :=
  match l with
  | [] => ret []
  | x :: rest => y <- f x ;; ys <- map_m f rest ;; ret (y :: ys)
  end.

(** The float of [0, 1) made from a raw draw. *)
Definition unit_of_raw (r : N) : Q := Z.of_N (r mod 2 ^ 53)%N # 2 ^ 53.

Section WithEnvironment.

Variable E : environment.

(** A driver call: logged, then it returns or raises as the
    environment says. *)
Definition call {T} (c : dcall T) : M T :=
  fun w => (drv E T (w_trace w) c, log (EvCall c) w).

(** A method call on a variable that holds a page or [None]: the
    attribute lookup on [None] raises before the driver is reached. *)
Definition call_on {T} (pg : option page) (c : page -> dcall T) : M T :=
  match pg with
  | Some p => call (c p)
  | None => raise (Exn AttributeError "'NoneType' object has no attribute")
  end.

(** [time.sleep(s)]; a negative length is a [ValueError]. *)
Definition time_sleep (s : Q) : M unit :=
  if Qle_bool 0 s then fun w => (inr tt, log (EvSleep s) w)
  else raise (Exn ValueError "sleep length must be non-negative").

Definition next_raw : M N :=
  fun w => (inr (rnd E (w_rng w)),
            World (w_page w) (w_config w) (w_out w) (w_trace w) (S (w_rng w))).

(** [random.random()]: a 53-bit integer over 2^53, in [0, 1). *)
Definition random_random : M Q :=
  r <- next_raw ;;
  ret (unit_of_raw r).

(** [random.uniform(a, b)] is [a + (b - a) * random()]. *)
Definition random_uniform (a b : Q) : M Q :=
  r <- random_random ;;
  ret (a + (b - a) * r)%Q.

(** [_randbelow(n)] for [n > 0]: any value of [0, n). *)
Definition randbelow (n : Z) : M Z :=
  r <- next_raw ;;
  ret (Z.of_N r mod n).

(** [random.randint(a, b)]. *)
Definition random_randint (a b : Z) : M Z :=
  if b <? a then raise (Exn ValueError "empty range for randrange()")
  else r <- randbelow (b - a + 1) ;; ret (a + r).

(** [random.choice(seq)] on a list of integers. *)
Definition random_choice (l : list Z) : M Z :=
  match l with
  | [] => raise (Exn IndexError "Cannot choose from an empty sequence")
  | _ => i <- randbelow (Z.of_nat (length l)) ;; ret (nth (Z.to_nat i) l 0)
  end.

(** [str(v)], as f-strings and [str()] format a value. *)
Definition py_str (v : json) : string :=
  match v with
  | JStr s => s
  | JInt z => Py.decimal z
  | JBool true => "True"
  | JBool false => "False"
  | JNull => "None"
  | _ => py_repr E v
  end.

(** [int(v)]. *)
Definition py_int (v : json) : exn + Z :=
  match v with
  | JInt z => inr z
  | JBool b => inr (if b then 1 else 0)
  | JFloat q => inr (Py.trunc q)
  | JStr s =>
      match int_of_str E s with
      | Some z => inr z
      | None => inl (Exn ValueError
                       ("invalid literal for int() with base 10: " ++ s))
      end
  | _ => inl (Exn TypeError
                "int() argument must be a string or a real number")
  end.

(** [v * f] with a float [f], then [int(...)]. *)
Definition int_of_scaled (v : json) (f : Q) : exn + Z :=
  match Py.num v with
  | Some q => inr (Py.trunc (q * f))
  | None => inl (Exn TypeError "can't multiply by non-int of type 'float'")
  end.

End WithEnvironment.

(* ================================================================== *)
(** * stealth_helpers.py                                               *)
(* ================================================================== *)

Module Stealth.
Section Helpers.

Variable E : environment.

(** [random_delay(min_ms, max_ms)].  The bridge passes configuration
    values, so the bounds are JSON values; [random.uniform] subtracts
    them before it draws, which raises on anything but numbers. *)
Definition random_delay (min_ms max_ms : json) : M unit :=
  match Py.num min_ms, Py.num max_ms with
  | Some a, Some b =>
      u <- random_uniform E a b ;;
      time_sleep (u / 1000)%Q
  | _, _ => raise (Exn TypeError "unsupported operand type(s) for -")
  end.

Definition _bezier_point (t p0 p1 p2 p3 : Q) : Q :=
  ((1 - t) ^ 3 * p0
   + 3 * (1 - t) ^ 2 * t * p1
   + 3 * (1 - t) * t ^ 2 * p2
   + t ^ 3 * p3)%Q.

(** [i / num_points] on integers. *)
Definition true_div (i n : Z) : exn + Q :=
  if n =? 0 then inl (Exn ZeroDivisionError "division by zero")
  else inr (inject_Z i / inject_Z n)%Q.

Definition bezier_curve_points (start end_ : Q * Q) (num_points : Z)
  : M (list (Z * Z)) :=
  let '(x0, y0) := start in
  let '(x3, y3) := end_ in
  let dx := (x3 - x0)%Q in
  let dy := (y3 - y0)%Q in
  let dist := math_sqrt E (dx * dx + dy * dy)%Q in
  let spread := Py.max (dist * (3 # 10))%Q 30%Q in
  u1 <- random_uniform E (2 # 10) (4 # 10) ;;
  v1 <- random_uniform E (- spread)%Q spread ;;
  let x1 := (x0 + dx * u1 + v1)%Q in
  u2 <- random_uniform E (2 # 10) (4 # 10) ;;
  v2 <- random_uniform E (- spread)%Q spread ;;
  let y1 := (y0 + dy * u2 + v2)%Q in
  u3 <- random_uniform E (6 # 10) (8 # 10) ;;
  v3 <- random_uniform E (- spread)%Q spread ;;
  let x2 := (x0 + dx * u3 + v3)%Q in
  u4 <- random_uniform E (6 # 10) (8 # 10) ;;
  v4 <- random_uniform E (- spread)%Q spread ;;
  let y2 := (y0 + dy * u4 + v4)%Q in
  map_m (fun i =>
           t <- lift (true_div i num_points) ;;
           let x := _bezier_point t x0 x1 x2 x3 in
           let y := _bezier_point t y0 y1 y2 y3 in
           ret (Py.round x, Py.round y))
        (Py.range (num_points + 1)).

Definition bezier_mouse_move (pg : option page) (start end_ : Z * Z)
  : M unit :=
  num_points <- random_randint E 15 30 ;;
  points <- bezier_curve_points
              (inject_Z (fst start), inject_Z (snd start))
              (inject_Z (fst end_), inject_Z (snd end_))
              num_points ;;
  for_each points (fun '(px, py) =>
    c <- try_except
           (call_on E pg (fun p => ActionsMove p px py) ;;; ret Continue)
           (fun _ =>
              try_except
                (call_on E pg (fun p => ActionsMoveTo p px py) ;;; ret Continue)
                (fun _ => ret Break)) ;;
    match c with
    | Break => ret Break
    | Continue =>
        d <- random_uniform E (5 # 1000) (25 # 1000) ;;
        time_sleep d ;;;
        ret Continue
    end).

Definition random_scroll_jitter (pg : option page) (max_delta : Z)
  : M unit :=
  d0 <- random_randint E (- max_delta) max_delta ;;
  delta <- (if d0 =? 0 then random_choice E [-30; 30] else ret d0) ;;
  try_except
    (if 0 <? delta then call_on E pg (fun p => ScrollDown p delta)
     else call_on E pg (fun p => ScrollUp p (Z.abs delta)))
    (fun _ => ret tt) ;;;
  random_delay (JInt 100) (JInt 300).

(** The body of the loop of [human_type], for one character. *)
Definition human_type_char (element : elem)
    (min_char_delay_ms max_char_delay_ms : Q) (char : json) : M loop_ctl :=
  c <- try_except
         (call E (ElemInput element char) ;;; ret Continue)
         (fun _ =>
            try_except
              (call E (ElemType element char) ;;; ret Continue)
              (fun _ => ret Break)) ;;
  match c with
  | Break => ret Break
  | Continue =>
      r <- random_random E ;;
      (if negb (Qle_bool (5 # 100) r)
       then d <- random_uniform E (3 # 10) (8 # 10) ;; time_sleep d
       else d <- random_uniform E (min_char_delay_ms / 1000)%Q
                                  (max_char_delay_ms / 1000)%Q ;;
            time_sleep d) ;;;
      ret Continue
  end.

Definition human_type (element : elem) (text : json)
    (min_char_delay_ms max_char_delay_ms : Q) : M unit :=
  chars <- lift (Py.iter text) ;;
  for_each chars
    (human_type_char element min_char_delay_ms max_char_delay_ms).

Definition get_random_viewport_point (width height : json) : M (Z * Z) :=
  xlo <- lift (int_of_scaled width (1 # 10)) ;;
  xhi <- lift (int_of_scaled width (9 # 10)) ;;
  x <- random_randint E xlo xhi ;;
  ylo <- lift (int_of_scaled height (1 # 10)) ;;
  yhi <- lift (int_of_scaled height (9 # 10)) ;;
  y <- random_randint E ylo yhi ;;
  ret (x, y).

Definition add_human_noise_to_coords (x y max_offset : Z) : M (Z * Z) :=
  ox <- random_randint E (- max_offset) max_offset ;;
  let nx := x + ox in
  oy <- random_randint E (- max_offset) max_offset ;;
  let ny := y + oy in
  ret (Z.max 0 nx, Z.max 0 ny).

End Helpers.
End Stealth.

(* ================================================================== *)
(** * drission_bridge.py                                               *)
(* ================================================================== *)

Module Bridge.

Definition dq : string := String (ascii_of_nat 34) EmptyString.

(** The DOM-scanning script of [handle_get_dom_map], verbatim. *)
Definition js_code : string :=
  String.concat dq
    ["
  (() => {
      const selectors = 'a, button, input, select, textarea, [role=";
     "button";
     "], [role=";
     "link";
     "], [role=";
     "tab";
     "], [onclick], [tabindex]';
      const elements = document.querySelectorAll(selectors);
      const results = [];
      let id = 1;
      for (const el of elements) {
          const rect = el.getBoundingClientRect();
          if (rect.width === 0 && rect.height === 0) continue;
          if (window.getComputedStyle(el).display === 'none') continue;
          if (window.getComputedStyle(el).visibility === 'hidden') continue;

          const tag = el.tagName.toLowerCase();
          let type = tag;
          if (tag === 'input') type = 'input:' + (el.type || 'text');
          if (tag === 'a') type = 'link';
          if (el.getAttribute('role')) type = 'role:' + el.getAttribute('role');

          const text = (el.textContent || el.value || el.placeholder || el.getAttribute('aria-label') || '').trim().substring(0, 100);

          results.push({
              id: id++,
              selector: buildSelector(el),
              tag: tag,
              text: text,
              type: type,
              rect: {
                  x: Math.round(rect.x),
                  y: Math.round(rect.y),
                  width: Math.round(rect.width),
                  height: Math.round(rect.height)
              }
          });
      }
      return results;

      function buildSelector(el) {
          if (el.id) return '#' + CSS.escape(el.id);
          const tag = el.tagName.toLowerCase();
          const parent = el.parentElement;
          if (!parent) return tag;
          const siblings = Array.from(parent.children).filter(c => c.tagName === el.tagName);
          if (siblings.length === 1) return buildSelector(parent) + ' > ' + tag;
          const idx = siblings.indexOf(el) + 1;
          return buildSelector(parent) + ' > ' + tag + ':nth-child(' + idx + ')';
      }
  })()
  "].

Section Handlers.

Variable E : environment.

Definition _send_response (msg_id : json) (result : json)
    (error : option json) : M unit :=
  let resp :=
    match error with
    | Some err => JObj [("id", msg_id); ("error", err)]
    | None => JObj [("id", msg_id); ("result", result)]
    end in
  write_line resp.

Definition _send_error (msg_id : json) (code : Z) (message : string)
    (data : option json) : M unit :=
  let err :=
    match data with
    | Some d => JObj [("code", JInt code); ("message", JStr message); ("data", d)]
    | None => JObj [("code", JInt code); ("message", JStr message)]
    end in
  _send_response msg_id JNull (Some err).

(** [_config.get(key, default)] on the global. *)
Definition config_get (key : string) (default : json) : M json :=
  c <- get_config ;;
  lift (Py.get c key default).

(** A method call or attribute read on the global [_page]. *)
Definition page_call {T} (c : page -> dcall T) : M T :=
  p <- get_page_opt ;;
  call_on E p c.

Definition _get_delay_range : M (json * json) :=
  min_ms <- config_get "minDelayMs" (JInt 200) ;;
  max_ms <- config_get "maxDelayMs" (JInt 800) ;;
  ret (min_ms, max_ms).

Definition _apply_human_delay : M unit :=
  '(min_ms, max_ms) <- _get_delay_range ;;
  Stealth.random_delay E min_ms max_ms.

(** ** Action handlers *)

Definition handle_init (params : json) : M json :=
  try_except (call E ImportDrissionPage)
    (fun e =>
       match exn_class e with
       | ImportError =>
           raise (Exn RuntimeError
                    "DrissionPage is not installed. Run: pip install DrissionPage")
       | _ => raise e
       end) ;;;
  cfg <- lift (Py.get params "stealth" (JObj [])) ;;
  set_config cfg ;;;
  co <- call E NewChromiumOptions ;;
  headless <- config_get "headless" (JBool false) ;;
  (if Py.truthy headless then call E (OptHeadless co) else ret tt) ;;;
  path <- config_get "executablePath" JNull ;;
  (if Py.truthy path then call E (OptSetBrowserPath co path) else ret tt) ;;;
  proxy <- config_get "proxy" JNull ;;
  (if Py.truthy proxy then call E (OptSetProxy co proxy) else ret tt) ;;;
  width <- config_get "windowWidth" (JInt 1920) ;;
  height <- config_get "windowHeight" (JInt 1080) ;;
  call E (OptSetArgument co (JStr "--window-size")
            (Some (JStr (py_str E width ++ "," ++ py_str E height)))) ;;;
  flag <- config_get "disableWebdriverFlag" (JBool true) ;;
  (if Py.truthy flag
   then call E (OptSetArgument co (JStr "--disable-blink-features")
                  (Some (JStr "AutomationControlled")))
   else ret tt) ;;;
  call E (OptSetArgument co (JStr "--disable-infobars") None) ;;;
  call E (OptSetArgument co (JStr "--disable-extensions") None) ;;;
  call E (OptSetArgument co (JStr "--no-first-run") None) ;;;
  call E (OptSetArgument co (JStr "--no-default-browser-check") None) ;;;
  ua <- config_get "userAgent" JNull ;;
  (if Py.truthy ua
   then call E (OptSetArgument co (JStr "--user-agent") (Some ua))
   else ret tt) ;;;
  extra <- config_get "extraArgs" (JArr []) ;;
  args <- lift (Py.iter extra) ;;
  for_each args (fun arg =>
    has_eq <- lift (Py.contains_eq arg) ;;
    (if has_eq : bool
     then '(key, val) <- lift (Py.split_arg arg) ;;
          call E (OptSetArgument co key (Some val))
     else call E (OptSetArgument co arg None)) ;;;
    ret Continue) ;;;
  pg <- call E (NewChromiumPage co) ;;
  set_page (Some pg) ;;;
  ret (JObj [("status", JStr "initialized");
             ("windowSize", JObj [("width", width); ("height", height)])]).

Definition handle_navigate (params : json) : M json :=
  url <- lift (Py.get params "url" (JStr "")) ;;
  if negb (Py.truthy url) then raise (Exn ValueError "url is required")
  else
    page_call (fun pg => PageGet pg url) ;;;
    _apply_human_delay ;;;
    u <- page_call PageUrl ;;
    t <- page_call PageTitle ;;
    ret (JObj [("url", u); ("title", t)]).

(** [str(element.text)[:200] if element.text else ""]. *)
Definition element_description (element : elem) : M json :=
  txt <- call E (ElemText element) ;;
  if Py.truthy txt
  then txt' <- call E (ElemText element) ;;
       ret (JStr (String.substring 0 200 (py_str E txt')))
  else ret (JStr "").

Definition handle_click_element (params : json) : M json :=
  selector <- lift (Py.get params "selector" (JStr "")) ;;
  if negb (Py.truthy selector) then raise (Exn ValueError "selector is required")
  else
    found <- page_call (fun pg => PageEle pg selector) ;;
    match found with
    | None => raise (Exn ValueError ("Element not found: " ++ py_str E selector))
    | Some element =>
        natural <- config_get "naturalMouseMovement" (JBool true) ;;
        (if Py.truthy natural
         then
           try_except
             (r <- call E (ElemRect element) ;;
              match r with
              | None => ret tt
              | Some rc =>
                  m0 <- call E (RectMidpoint rc) ;;
                  let target_x := Py.trunc (fst m0) in
                  m1 <- call E (RectMidpoint rc) ;;
                  let target_y := Py.trunc (snd m1) in
                  w <- config_get "windowWidth" (JInt 1920) ;;
                  h <- config_get "windowHeight" (JInt 1080) ;;
                  start <- Stealth.get_random_viewport_point E w h ;;
                  target <- Stealth.add_human_noise_to_coords E target_x target_y 3 ;;
                  pg <- get_page_opt ;;
                  Stealth.bezier_mouse_move E pg start target
              end)
             (fun _ => ret tt)
         else ret tt) ;;;
        call E (ElemClick element) ;;;
        _apply_human_delay ;;;
        descr <- element_description element ;;
        ret (JObj [("success", JBool true); ("elementDescription", descr)])
    end.

Definition handle_click_xy (params : json) : M json :=
  xv <- lift (Py.get params "x" (JInt 0)) ;;
  x <- lift (py_int E xv) ;;
  yv <- lift (Py.get params "y" (JInt 0)) ;;
  y <- lift (py_int E yv) ;;
  natural <- config_get "naturalMouseMovement" (JBool true) ;;
  (if Py.truthy natural
   then
     w <- config_get "windowWidth" (JInt 1920) ;;
     h <- config_get "windowHeight" (JInt 1080) ;;
     start <- Stealth.get_random_viewport_point E w h ;;
     target <- Stealth.add_human_noise_to_coords E x y 3 ;;
     pg <- get_page_opt ;;
     Stealth.bezier_mouse_move E pg start target
   else ret tt) ;;;
  page_call (fun pg => ActionsClick pg x y) ;;;
  _apply_human_delay ;;;
  ret (JObj [("success", JBool true); ("x", JInt x); ("y", JInt y)]).

Definition handle_type_text (params : json) : M json :=
  selector <- lift (Py.get params "selector" (JStr "")) ;;
  text <- lift (Py.get params "text" (JStr "")) ;;
  clear <- lift (Py.get params "clear" (JBool true)) ;;
  use_human_typing <- lift (Py.get params "humanTyping" (JBool true)) ;;
  if negb (Py.truthy selector) then raise (Exn ValueError "selector is required")
  else
    found <- page_call (fun pg => PageEle pg selector) ;;
    match found with
    | None => raise (Exn ValueError ("Element not found: " ++ py_str E selector))
    | Some element =>
        (if Py.truthy clear
         then try_except (call E (ElemClear element)) (fun _ => ret tt)
         else ret tt) ;;;
        (if Py.truthy use_human_typing
         then Stealth.human_type E element text 50 200
         else call E (ElemInput element text)) ;;;
        _apply_human_delay ;;;
        ret (JObj [("success", JBool true); ("fieldDescription", selector)])
    end.

Definition handle_screenshot (params : json) : M json :=
  fmt <- lift (Py.get params "format" (JStr "png")) ;;
  full_page <- lift (Py.get params "fullPage" (JBool false)) ;;
  img_bytes <-
    try_except
      (page_call (fun pg => PageGetScreenshot pg fmt (Some full_page)))
      (fun e =>
         match exn_class e with
         | TypeError =>
             page_call (fun pg => PageGetScreenshot pg (JBool true) None)
         | _ => raise e
         end) ;;
  let b64 := b64encode E img_bytes in
  width <- config_get "windowWidth" (JInt 1920) ;;
  height <- config_get "windowHeight" (JInt 1080) ;;
  ret (JObj [("base64", JStr b64); ("format", fmt);
             ("width", width); ("height", height)]).

Definition handle_get_dom_map (params : json) : M json :=
  elements <- page_call (fun pg => PageRunJs pg (JStr js_code)) ;;
  u <- page_call PageUrl ;;
  t <- page_call PageTitle ;;
  ret (JObj [("elements", if Py.truthy elements then elements else JArr []);
             ("url", u); ("title", t)]).

Definition handle_scroll (params : json) : M json :=
  direction <- lift (Py.get params "direction" (JStr "down")) ;;
  av <- lift (Py.get params "amount" (JInt 300)) ;;
  amount <- lift (py_int E av) ;;
  (if Py.eq_str direction "down"
   then page_call (fun pg => ScrollDown pg amount)
   else if Py.eq_str direction "up"
   then page_call (fun pg => ScrollUp pg amount)
   else if Py.eq_str direction "top"
   then page_call ScrollToTop
   else if Py.eq_str direction "bottom"
   then page_call ScrollToBottom
   else ret tt) ;;;
  natural <- config_get "naturalMouseMovement" (JBool true) ;;
  (if Py.truthy natural
   then pg <- get_page_opt ;; Stealth.random_scroll_jitter E pg 30
   else ret tt) ;;;
  _apply_human_delay ;;;
  ret (JObj [("success", JBool true); ("direction", direction)]).

Definition handle_wait (params : json) : M json :=
  mv <- lift (Py.get params "ms" (JInt 1000)) ;;
  ms <- lift (py_int E mv) ;;
  selector <- lift (Py.get params "selector" JNull) ;;
  if Py.truthy selector
  then
    try_except
      (page_call (fun pg => WaitEleDisplayed pg selector (inject_Z ms / 1000)%Q) ;;;
       ret (JObj [("success", JBool true); ("waited_for", selector)]))
      (fun _ =>
         ret (JObj [("success", JBool false); ("waited_for", selector);
                    ("timedOut", JBool true)]))
  else
    time_sleep (inject_Z ms / 1000)%Q ;;;
    ret (JObj [("success", JBool true); ("waited_ms", JInt ms)]).

Definition handle_execute_js (params : json) : M json :=
  code <- lift (Py.get params "code" (JStr "")) ;;
  if negb (Py.truthy code) then raise (Exn ValueError "code is required")
  else
    result <- page_call (fun pg => PageRunJs pg code) ;;
    ret (JObj [("result", result)]).

Definition handle_close (params : json) : M json :=
  p <- get_page_opt ;;
  match p with
  | Some pg =>
      try_except (call E (PageQuit pg)) (fun _ => ret tt) ;;;
      set_page None
  | None => ret tt
  end ;;;
  ret (JObj [("status", JStr "closed")]).

Definition handle_get_page_info (params : json) : M json :=
  p <- get_page_opt ;;
  u <- match p with Some pg => call E (PageUrl pg) | None => ret (JStr "") end ;;
  p' <- get_page_opt ;;
  t <- match p' with Some pg => call E (PageTitle pg) | None => ret (JStr "") end ;;
  p'' <- get_page_opt ;;
  ret (JObj [("url", u); ("title", t);
             ("ready", JBool (match p'' with Some _ => true | None => false end))]).

(** ** Method dispatch *)

Definition METHODS : list (string * (json -> M json)) :=
  [("init", handle_init);
   ("navigate", handle_navigate);
   ("click_element", handle_click_element);
   ("click_xy", handle_click_xy);
   ("type_text", handle_type_text);
   ("screenshot", handle_screenshot);
   ("get_dom_map", handle_get_dom_map);
   ("scroll", handle_scroll);
   ("wait", handle_wait);
   ("execute_js", handle_execute_js);
   ("close", handle_close);
   ("get_page_info", handle_get_page_info)].

Fixpoint lookup {A} (k : string) (l : list (string * A)) : option A :=
  match l with
  | [] => None
  | (k', v) :: rest => if String.eqb k k' then Some v else lookup k rest
  end.

(** [METHODS.get(method)]: a key that is not a string is never found, and
    a list or a dictionary cannot be hashed. *)
Definition METHODS_get (method : json) : exn + option (json -> M json) :=
  match method with
  | JStr name => inr (lookup name METHODS)
  | JArr _ | JObj _ => inl (Exn TypeError "unhashable type")
  | _ => inr None
  end.

(** The body of the [try] of [main] once [msg_id] is bound to the
    request's id. *)
Definition dispatch (req msg_id : json) : M unit :=
  method <- lift (Py.get req "method" (JStr "")) ;;
  params <- lift (Py.get req "params" (JObj [])) ;;
  handler <- lift (METHODS_get method) ;;
  match handler with
  | None =>
      _send_error msg_id (-32601) ("Method not found: " ++ py_str E method) None
  | Some h =>
      p <- get_page_opt ;;
      if (negb (Py.eq_str method "init")
          && match p with None => true | Some _ => false end
          && negb (Py.eq_str method "close"))%bool
      then _send_error msg_id (-32000)
             "Browser not initialized. Call 'init' first." None
      else
        result <- h params ;;
        _send_response msg_id result None
  end.

Definition report (msg_id : json) (e : exn) : M unit :=
  _send_error msg_id (-32000) (str_exn e)
    (Some (JObj [("traceback", JStr (format_exc E e))])).

(** One request, already parsed: the [try] block of [main] after
    [json.loads], with its [except Exception] clause.  [msg_id] is [0]
    until [req.get("id", 0)] has returned. *)
Definition handle_request (req : json) : M unit :=
  match Py.get req "id" (JInt 0) with
  | inl e => report (JInt 0) e
  | inr msg_id => try_except (dispatch req msg_id) (report msg_id)
  end.




End Handlers.
End Bridge.

(* ================================================================== *)
(** * Vocabulary of the properties                                     *)
(* ================================================================== *)


(** The world after one more line on stdout. *)
Definition with_line (w : world) (line : json) : world :=
  World (w_page w) (w_config w) (w_out w ++ [line]) (w_trace w) (w_rng w).

(** The id a response carries: [req.get("id", 0)], and [0] when the
    request has no [get]. *)
Definition request_id (req : json) : json :=
  match Py.get req "id" (JInt 0) with
  | inr v => v
  | inl _ => JInt 0
  end.

(** The world after [k] more raw random draws. *)
Definition draws (k : nat) (w : world) : world :=
  World (w_page w) (w_config w) (w_out w) (w_trace w) (k + w_rng w).

(** The two shapes of a response line. *)
Definition result_line (msg_id result : json) : json :=
  JObj [("id", msg_id); ("result", result)].

Definition error_line (msg_id : json) (code : Z) (message : string) : json :=
  JObj [("id", msg_id);
        ("error", JObj [("code", JInt code); ("message", JStr message)])].

Definition error_line_tb (msg_id : json) (code : Z) (message tb : string) : json :=
  JObj [("id", msg_id);
        ("error", JObj [("code", JInt code); ("message", JStr message);
                        ("data", JObj [("traceback", JStr tb)])])].


(** The keys of the dispatch table. *)
Definition method_names : list string :=
  ["init"; "navigate"; "click_element"; "click_xy"; "type_text";
   "screenshot"; "get_dom_map"; "scroll"; "wait"; "execute_js";
   "close"; "get_page_info"].


(** The methods that need a live browser. *)
Definition ready_only_methods : list string :=
  ["navigate"; "click_element"; "click_xy"; "type_text"; "screenshot";
   "get_dom_map"; "scroll"; "wait"; "execute_js"].

(** The parameters whose absence a handler rejects. *)
Definition required_params : list (string * string) :=
  [("navigate", "url"); ("click_element", "selector");
   ("type_text", "selector"); ("execute_js", "code")].

(** The driver call by which [random_scroll_jitter] applies a delta. *)
Definition jitter_call (p : page) (delta : Z) : event :=
  if 0 <? delta then EvCall (ScrollDown p delta)
  else EvCall (ScrollUp p (Z.abs delta)).



(** [keeps f m]: running [m] leaves the observation [f] of the world
    unchanged, whether [m] returns or raises. *)
Definition keeps {X A} (f : world -> X) (m : M A) : Prop :=
  forall w, f (snd (m w)) = f w.

(** An observation that neither the log nor the random stream affects. *)
Record stable {X} (f : world -> X) : Prop := {
  stable_log : forall ev w, f (log ev w) = f w;
  stable_rng : forall p c o t r, f (World p c o t (S r)) = f (World p c o t r)
}.

(** ** What a computation logs *)

(** [emits P m]: running [m] only appends to the log, and every event it
    appends satisfies [P]. *)
Definition emits {A} (P : event -> bool) (m : M A) : Prop :=
  forall w, exists evs,
    w_trace (snd (m w)) = (w_trace w ++ evs)%list /\ forallb P evs = true.

Definition is_quit (ev : event) : bool :=
  match ev with
  | EvCall c => match c with PageQuit _ => true | _ => false end
  | EvSleep _ => false
  end.

Definition is_sleep (ev : event) : bool :=
  match ev with
  | EvSleep _ => true
  | EvCall _ => false
  end.



(** The methods whose handlers apply no humanized delay. *)
Definition undelayed_methods : list string :=
  ["init"; "screenshot"; "get_dom_map"; "execute_js"; "close";
   "get_page_info"].



Definition any_event (ev : event) : bool := true.

(** A call that passes the flag [flag] (with no value) to the browser
    options. *)
Definition is_flag (flag : string) (ev : event) : bool :=
  match ev with
  | EvCall c =>
      match c with
      | OptSetArgument _ key None => Py.eq_str key flag
      | _ => false
      end
  | EvSleep _ => false
  end.

(** The launch flags [handle_init] passes unconditionally. *)
Definition fixed_flags : list string :=
  ["--disable-infobars"; "--disable-extensions"; "--no-first-run";
   "--no-default-browser-check"].

(** ** Two concrete environments *)

(** A driver on which every call succeeds. *)
Definition quiet_driver (T : Type) (h : list event) (c : dcall T) : exn + T :=
  match c in dcall T return exn + T with
  | ImportDrissionPage => inr tt
  | NewChromiumOptions => inr (Options 0)
  | OptHeadless _ => inr tt
  | OptSetBrowserPath _ _ => inr tt
  | OptSetProxy _ _ => inr tt
  | OptSetArgument _ _ _ => inr tt
  | NewChromiumPage _ => inr (Page 1)
  | PageGet _ _ => inr tt
  | PageUrl _ => inr (JStr "about:blank")
  | PageTitle _ => inr (JStr "")
  | PageEle _ _ => inr (Some (Elem 0))
  | PageGetScreenshot _ _ _ => inr ""
  | PageRunJs _ _ => inr JNull
  | PageQuit _ => inr tt
  | ActionsMove _ _ _ => inr tt
  | ActionsMoveTo _ _ _ => inr tt
  | ActionsClick _ _ _ => inr tt
  | ScrollDown _ _ => inr tt
  | ScrollUp _ _ => inr tt
  | ScrollToTop _ => inr tt
  | ScrollToBottom _ => inr tt
  | WaitEleDisplayed _ _ _ => inr tt
  | ElemRect _ => inr None
  | RectMidpoint _ => inr (0%Q, 0%Q)
  | ElemText _ => inr (JStr "")
  | ElemClick _ => inr tt
  | ElemClear _ => inr tt
  | ElemInput _ _ => inr tt
  | ElemType _ _ => inr tt
  end.


Definition demo_env (d : forall T, list event -> dcall T -> exn + T)
  : environment :=
  Environment d
    (fun _ => 0%N)
    (fun s => inl (Exn ValueError "Expecting value: line 1 column 1 (char 0)"))
    (fun e => "Traceback (most recent call last): " ++ exn_msg e)
    (fun _ => "<object>")
    (fun _ => None)
    (fun q => q)
    (fun s => s).

Definition quiet_env : environment := demo_env quiet_driver.

(** A driver in trouble: DrissionPage is not installed, pages do not
    load, selectors match nothing, and [get_screenshot] does not take the
    [full_page] keyword (and knows no format but png). *)
Definition broken_driver (T : Type) (h : list event) (c : dcall T) : exn + T :=
  match c in dcall T return exn + T with
  | ImportDrissionPage =>
      inl (Exn ImportError "No module named 'DrissionPage'")
  | PageGet _ _ => inl (Exn OtherException "net::ERR_NAME_NOT_RESOLVED")
  | PageEle _ _ => inr None
  | PageGetScreenshot _ fmt (Some _) =>
      if Py.eq_str fmt "png"
      then inl (Exn TypeError "unexpected keyword argument 'full_page'")
      else inl (Exn ValueError "unsupported format")
  | PageGetScreenshot _ _ None => inr "PNG"
  | c' => quiet_driver _ h c'
  end.

Definition broken_env : environment := demo_env broken_driver.

(** Sample requests and worlds. *)
Definition request (id : Z) (method : string) (params : json) : json :=
  JObj [("id", JInt id); ("method", JStr method); ("params", params)].

Definition fresh_world : world := World None (JObj []) [] [] 0.

Definition ready_world : world :=
  World (Some (Page 1)) (JObj [("naturalMouseMovement", JBool false)]) [] [] 0.

(* ================================================================== *)
(** * Properties                                                       *)
(* ================================================================== *)

Import Bridge.

(** ** Lookups in requests and in the dispatch table *)

Lemma lookup_not_in {A} (name : string) (l : list (string * A)) :
  ~ In name (map fst l) -> lookup name l = None.
Proof.
  induction l as [|[k v] l IH]; simpl; intros H; [reflexivity|].
  destruct (String.eqb_spec name k) as [->|Hne].
  - exfalso. apply H. now left.
  - apply IH. intros Hin. apply H. now right.
Qed.

Lemma METHODS_names E : map fst (METHODS E) = method_names.
Proof. reflexivity. Qed.


Lemma lookup_known E name :
  (exists h, lookup name (METHODS E) = Some h) <-> In name method_names.
Proof.
  split.
  - intros [h Hh].
    destruct (in_dec string_dec name method_names) as [Hin|Hout]; [assumption|].
    rewrite <- (METHODS_names E) in Hout.
    rewrite (lookup_not_in _ _ Hout) in Hh. discriminate.
  - simpl. intros H.
    repeat (destruct H as [<-|H]; [eexists; reflexivity|]).
    contradiction.
Qed.

(** C1 (as the code behaves).  A [get_page_info] request that arrives
    while [_page] is [None] is answered, whatever its id, by the error
    "Browser not initialized" with code -32000: the guard of [main] lets
    only [init] and [close] through.  Called on its own in the same
    world, [handle_get_page_info] does return the empty url and title and
    [ready = false], without touching the driver. *)
Theorem get_page_info_before_init
    (E : environment) (msg_id cfg : json) (out : list json)
    (tr : list event) (rng : nat) :
  let w := World None cfg out tr rng in
  let req := JObj [("id", msg_id); ("method", JStr "get_page_info");
                   ("params", JObj [])] in
  handle_request E req w
  = (inr tt,
     with_line w
       (error_line msg_id (-32000)
          "Browser not initialized. Call 'init' first."))
  /\ handle_get_page_info E (JObj []) w
     = (inr (JObj [("url", JStr ""); ("title", JStr "");
                   ("ready", JBool false)]), w).
Proof. split; reflexivity. Qed.

(** ** Frame reasoning *)



Section Frame.

Context {X : Type} (f : world -> X) (Hf : stable f).
Variable E : environment.

Lemma keeps_ret {A} (a : A) : keeps f (ret a).
Proof. intros w. reflexivity. Qed.

Lemma keeps_raise {A} (e : exn) : keeps f (@raise A e).
Proof. intros w. reflexivity. Qed.

Lemma keeps_lift {A} (r : exn + A) : keeps f (lift r).
Proof. intros w. reflexivity. Qed.

Lemma keeps_bind {A B} (m : M A) (k : A -> M B) :
  keeps f m -> (forall a, keeps f (k a)) -> keeps f (bind m k).
Proof.
  intros Hm Hk w. unfold bind. specialize (Hm w).
  destruct (m w) as [[e|a] w']; simpl in *; [assumption|].
  rewrite Hk. assumption.
Qed.

Lemma keeps_try {A} (m : M A) (h : exn -> M A) :
  keeps f m -> (forall e, keeps f (h e)) -> keeps f (try_except m h).
Proof.
  intros Hm Hh w. unfold try_except. specialize (Hm w).
  destruct (m w) as [[e|a] w']; simpl in *; [|assumption].
  rewrite Hh. assumption.
Qed.

Lemma keeps_for_each {A} (l : list A) (body : A -> M loop_ctl) :
  (forall a, keeps f (body a)) -> keeps f (for_each l body).
Proof.
  intros Hb. induction l as [|x l IH]; simpl.
  - apply keeps_ret.
  - apply keeps_bind; [apply Hb|]. intros [|]; [assumption | apply keeps_ret].
Qed.

Lemma keeps_map_m {A B} (g : A -> M B) (l : list A) :
  (forall a, keeps f (g a)) -> keeps f (map_m g l).
Proof.
  intros Hg. induction l as [|x l IH]; simpl.
  - apply keeps_ret.
  - apply keeps_bind; [apply Hg|]. intros y.
    apply keeps_bind; [assumption|]. intros ys. apply keeps_ret.
Qed.

Lemma keeps_get_page_opt : keeps f get_page_opt.
Proof. intros w. reflexivity. Qed.

Lemma keeps_get_config : keeps f get_config.
Proof. intros w. reflexivity. Qed.

Lemma keeps_call {T} (c : dcall T) : keeps f (call E c).
Proof. intros w. simpl. apply (stable_log f Hf). Qed.

Lemma keeps_call_on {T} (pg : option page) (c : page -> dcall T) :
  keeps f (call_on E pg c).
Proof. destruct pg; [apply keeps_call | apply keeps_raise]. Qed.

Lemma keeps_time_sleep (s : Q) : keeps f (time_sleep s).
Proof.
  unfold time_sleep. destruct (Qle_bool 0 s); [|apply keeps_raise].
  intros w. simpl. apply (stable_log f Hf).
Qed.

Lemma keeps_next_raw : keeps f (next_raw E).
Proof. intros [p c o t r]. simpl. apply (stable_rng f Hf). Qed.

End Frame.

(** Decomposes a frame goal along the structure of the code. *)
Ltac frame_step Hf :=
  lazymatch goal with
  | |- keeps _ (ret _) => apply keeps_ret
  | |- keeps _ (raise _) => apply keeps_raise
  | |- keeps _ (lift _) => apply keeps_lift
  | |- keeps _ get_page_opt => apply keeps_get_page_opt
  | |- keeps _ get_config => apply keeps_get_config
  | |- keeps _ (call _ _) => apply (keeps_call _ Hf)
  | |- keeps _ (call_on _ _ _) => apply (keeps_call_on _ Hf)
  | |- keeps _ (time_sleep _) => apply (keeps_time_sleep _ Hf)
  | |- keeps _ (next_raw _) => apply (keeps_next_raw _ Hf)
  | |- keeps _ (bind _ _) => apply keeps_bind; [ | intros ? ]
  | |- keeps _ (try_except _ _) => apply keeps_try; [ | intros ? ]
  | |- keeps _ (for_each _ _) => apply keeps_for_each; intros ?
  | |- keeps _ (map_m _ _) => apply keeps_map_m; intros ?
  | |- keeps _ (match ?x with _ => _ end) => destruct x
  end.

Ltac frame Hf := cbv beta; repeat (frame_step Hf; cbv beta).

Section FrameOfTheCode.

Context {X : Type} (f : world -> X) (Hf : stable f).
Variable E : environment.

Lemma keeps_random_random : keeps f (random_random E).
Proof. unfold random_random. frame Hf. Qed.

Lemma keeps_random_uniform a b : keeps f (random_uniform E a b).
Proof. unfold random_uniform, random_random. frame Hf. Qed.

Lemma keeps_random_randint a b : keeps f (random_randint E a b).
Proof. unfold random_randint, randbelow. frame Hf. Qed.

Lemma keeps_random_choice l : keeps f (random_choice E l).
Proof. unfold random_choice, randbelow. frame Hf. Qed.

Lemma keeps_random_delay a b : keeps f (Stealth.random_delay E a b).
Proof.
  unfold Stealth.random_delay, random_uniform, random_random. frame Hf.
Qed.

Lemma keeps_bezier_curve_points s e n :
  keeps f (Stealth.bezier_curve_points E s e n).
Proof.
  unfold Stealth.bezier_curve_points, random_uniform, random_random.
  destruct s, e. frame Hf.
Qed.

Lemma keeps_bezier_mouse_move pg s e :
  keeps f (Stealth.bezier_mouse_move E pg s e).
Proof.
  unfold Stealth.bezier_mouse_move.
  apply keeps_bind; [apply keeps_random_randint|]. intros n.
  apply keeps_bind; [apply keeps_bezier_curve_points|]. intros pts.
  apply keeps_for_each. intros [px py].
  apply keeps_bind; [frame Hf|]. intros [|]; [|frame Hf].
  apply keeps_bind; [apply keeps_random_uniform|]. intros d. frame Hf.
Qed.

Lemma keeps_random_scroll_jitter pg n :
  keeps f (Stealth.random_scroll_jitter E pg n).
Proof.
  unfold Stealth.random_scroll_jitter.
  apply keeps_bind; [apply keeps_random_randint|]. intros d0.
  apply keeps_bind.
  { destruct (d0 =? 0); [apply keeps_random_choice | apply keeps_ret]. }
  intros delta.
  apply keeps_bind; [frame Hf|]. intros _. apply keeps_random_delay.
Qed.

Lemma keeps_human_type el text mn mx :
  keeps f (Stealth.human_type E el text mn mx).
Proof.
  unfold Stealth.human_type.
  apply keeps_bind; [apply keeps_lift|]. intros chars.
  apply keeps_for_each. intros c. unfold Stealth.human_type_char.
  apply keeps_bind; [frame Hf|]. intros [|]; [|frame Hf].
  apply keeps_bind; [apply keeps_random_random|]. intros r.
  apply keeps_bind; [|intros; apply keeps_ret].
  destruct (negb (Qle_bool (5 # 100) r));
    (apply keeps_bind; [apply keeps_random_uniform|]; intros d;
     apply (keeps_time_sleep _ Hf)).
Qed.

Lemma keeps_get_random_viewport_point wd ht :
  keeps f (Stealth.get_random_viewport_point E wd ht).
Proof.
  unfold Stealth.get_random_viewport_point.
  repeat (first [ apply keeps_random_randint | apply keeps_lift
                | apply keeps_ret | apply keeps_bind; [|intros ?] ]).
Qed.

Lemma keeps_add_human_noise_to_coords x y m :
  keeps f (Stealth.add_human_noise_to_coords E x y m).
Proof.
  unfold Stealth.add_human_noise_to_coords.
  repeat (first [ apply keeps_random_randint | apply keeps_ret
                | apply keeps_bind; [|intros ?] ]).
Qed.

End FrameOfTheCode.

(** Decomposes a frame goal about a handler: the helpers are taken as
    wholes, through the lemmas above. *)
Ltac frame_code Hf :=
  cbv beta;
  repeat
    (lazymatch goal with
     | |- keeps _ (Stealth.random_delay _ _ _) =>
         apply (keeps_random_delay _ Hf)
     | |- keeps _ (Stealth.random_scroll_jitter _ _ _) =>
         apply (keeps_random_scroll_jitter _ Hf)
     | |- keeps _ (Stealth.human_type _ _ _ _ _) =>
         apply (keeps_human_type _ Hf)
     | |- keeps _ (Stealth.bezier_mouse_move _ _ _ _) =>
         apply (keeps_bezier_mouse_move _ Hf)
     | |- keeps _ (Stealth.get_random_viewport_point _ _ _) =>
         apply (keeps_get_random_viewport_point _ Hf)
     | |- keeps _ (Stealth.add_human_noise_to_coords _ _ _ _) =>
         apply (keeps_add_human_noise_to_coords _ Hf)
     | |- _ => frame_step Hf
     end;
     cbv beta).

Section FrameOfTheHandlers.

Context {X : Type} (f : world -> X) (Hf : stable f).
Variable E : environment.

Lemma keeps_config_get k d : keeps f (config_get k d).
Proof. unfold config_get. frame_code Hf. Qed.

Lemma keeps_page_call {T} (c : page -> dcall T) : keeps f (page_call E c).
Proof. unfold page_call. frame_code Hf. Qed.

Lemma keeps_apply_human_delay : keeps f (_apply_human_delay E).
Proof.
  unfold _apply_human_delay, _get_delay_range, config_get. frame_code Hf.
Qed.

Lemma keeps_element_description el : keeps f (element_description E el).
Proof. unfold element_description. frame_code Hf. Qed.

Lemma keeps_handle_navigate params : keeps f (handle_navigate E params).
Proof.
  unfold handle_navigate, page_call.
  apply keeps_bind; [apply keeps_lift|]. intros url.
  destruct (negb (Py.truthy url)); [apply keeps_raise|].
  apply keeps_bind; [frame_code Hf|]. intros _.
  apply keeps_bind; [apply keeps_apply_human_delay|]. intros _.
  frame_code Hf.
Qed.

Lemma keeps_handle_click_element params :
  keeps f (handle_click_element E params).
Proof.
  unfold handle_click_element, page_call.
  apply keeps_bind; [apply keeps_lift|]. intros selector.
  destruct (negb (Py.truthy selector)); [apply keeps_raise|].
  apply keeps_bind; [frame_code Hf|]. intros [element|]; [|apply keeps_raise].
  apply keeps_bind; [apply keeps_config_get|]. intros natural.
  apply keeps_bind.
  { destruct (Py.truthy natural); [|apply keeps_ret].
    apply keeps_try; [|intros; apply keeps_ret].
    apply keeps_bind; [apply (keeps_call _ Hf)|]. intros [rc|]; [|apply keeps_ret].
    unfold config_get. frame_code Hf. }
  intros _.
  apply keeps_bind; [apply (keeps_call _ Hf)|]. intros _.
  apply keeps_bind; [apply keeps_apply_human_delay|]. intros _.
  apply keeps_bind; [apply keeps_element_description|]. intros d.
  apply keeps_ret.
Qed.

Lemma keeps_handle_click_xy params : keeps f (handle_click_xy E params).
Proof.
  unfold handle_click_xy, page_call.
  do 4 (apply keeps_bind; [apply keeps_lift|]; intros ?).
  apply keeps_bind; [apply keeps_config_get|]. intros natural.
  apply keeps_bind.
  { destruct (Py.truthy natural); [|apply keeps_ret].
    unfold config_get. frame_code Hf. }
  intros _.
  apply keeps_bind; [frame_code Hf|]. intros _.
  apply keeps_bind; [apply keeps_apply_human_delay|]. intros _.
  apply keeps_ret.
Qed.

Lemma keeps_handle_type_text params : keeps f (handle_type_text E params).
Proof.
  unfold handle_type_text, page_call.
  do 4 (apply keeps_bind; [apply keeps_lift|]; intros ?).
  destruct (negb (Py.truthy a)); [apply keeps_raise|].
  apply keeps_bind; [frame_code Hf|]. intros [element|]; [|apply keeps_raise].
  apply keeps_bind.
  { destruct (Py.truthy a1); frame_code Hf. }
  intros _.
  apply keeps_bind.
  { destruct (Py.truthy a2); frame_code Hf. }
  intros _.
  apply keeps_bind; [apply keeps_apply_human_delay|]. intros _.
  apply keeps_ret.
Qed.

Lemma keeps_handle_screenshot params : keeps f (handle_screenshot E params).
Proof.
  unfold handle_screenshot, page_call, config_get.
  do 2 (apply keeps_bind; [apply keeps_lift|]; intros ?).
  apply keeps_bind.
  { apply keeps_try; [frame_code Hf|]. intros e.
    destruct (exn_class e); frame_code Hf. }
  intros img. frame_code Hf.
Qed.

Lemma keeps_handle_get_dom_map params : keeps f (handle_get_dom_map E params).
Proof. unfold handle_get_dom_map, page_call. frame_code Hf. Qed.

Lemma keeps_handle_scroll params : keeps f (handle_scroll E params).
Proof.
  unfold handle_scroll, page_call.
  do 3 (apply keeps_bind; [apply keeps_lift|]; intros ?).
  apply keeps_bind.
  { repeat match goal with
           | |- keeps _ (if ?b then _ else _) => destruct b
           end; frame_code Hf. }
  intros _.
  apply keeps_bind; [apply keeps_config_get|]. intros natural.
  apply keeps_bind.
  { destruct (Py.truthy natural); frame_code Hf. }
  intros _.
  apply keeps_bind; [apply keeps_apply_human_delay|]. intros _.
  apply keeps_ret.
Qed.

Lemma keeps_handle_wait params : keeps f (handle_wait E params).
Proof.
  unfold handle_wait, page_call.
  do 3 (apply keeps_bind; [apply keeps_lift|]; intros ?).
  destruct (Py.truthy a1); frame_code Hf.
Qed.

Lemma keeps_handle_execute_js params : keeps f (handle_execute_js E params).
Proof.
  unfold handle_execute_js, page_call.
  apply keeps_bind; [apply keeps_lift|]. intros code.
  destruct (negb (Py.truthy code)); frame_code Hf.
Qed.

Lemma keeps_handle_get_page_info params :
  keeps f (handle_get_page_info E params).
Proof. unfold handle_get_page_info. frame_code Hf. Qed.

(** [init] and [close] assign the globals. *)
Hypothesis f_page : forall pg p c o t r, f (World pg c o t r) = f (World p c o t r).
Hypothesis f_config : forall cfg p c o t r, f (World p cfg o t r) = f (World p c o t r).

Lemma keeps_set_page pg : keeps f (set_page pg).
Proof. intros [p c o t r]. simpl. apply f_page. Qed.


Lemma keeps_handle_close params : keeps f (handle_close E params).
Proof.
  unfold handle_close.
  apply keeps_bind; [apply keeps_get_page_opt|]. intros [pg|].
  - apply keeps_bind; [|intros; apply keeps_ret].
    apply keeps_bind; [frame_code Hf|]. intros _. apply keeps_set_page.
  - frame_code Hf.
Qed.


End FrameOfTheHandlers.

(** ** The dispatcher *)

Lemma lookup_METHODS E name h :
  lookup name (METHODS E) = Some h ->
  (name = "init" /\ h = handle_init E)
  \/ (name = "close" /\ h = handle_close E)
  \/ (In name ready_only_methods \/ name = "get_page_info")
     /\ forall {X} (f : world -> X), stable f -> forall params, keeps f (h params).
Proof.
  intros H. unfold METHODS, lookup in H.
  repeat match type of H with
         | (if String.eqb ?a ?b then _ else _) = _ =>
             destruct (String.eqb_spec a b) as [->|?]; [injection H as <-|]
         end;
    try discriminate.
  - left. split; reflexivity.
  - right; right. split; [left; simpl; tauto|].
    intros X f Hf params. now apply keeps_handle_navigate.
  - right; right. split; [left; simpl; tauto|].
    intros X f Hf params. now apply keeps_handle_click_element.
  - right; right. split; [left; simpl; tauto|].
    intros X f Hf params. now apply keeps_handle_click_xy.
  - right; right. split; [left; simpl; tauto|].
    intros X f Hf params. now apply keeps_handle_type_text.
  - right; right. split; [left; simpl; tauto|].
    intros X f Hf params. now apply keeps_handle_screenshot.
  - right; right. split; [left; simpl; tauto|].
    intros X f Hf params. now apply keeps_handle_get_dom_map.
  - right; right. split; [left; simpl; tauto|].
    intros X f Hf params. now apply keeps_handle_scroll.
  - right; right. split; [left; simpl; tauto|].
    intros X f Hf params. now apply keeps_handle_wait.
  - right; right. split; [left; simpl; tauto|].
    intros X f Hf params. now apply keeps_handle_execute_js.
  - right; left. split; reflexivity.
  - right; right. split; [right; reflexivity|].
    intros X f Hf params. now apply keeps_handle_get_page_info.
Qed.

Lemma keeps_bind_lift {X A B} (f : world -> X) (r : exn + A) (k : A -> M B) :
  (forall a, r = inr a -> keeps f (k a)) -> keeps f (bind (lift r) k).
Proof.
  intros Hk. destruct r as [e|a].
  - intros w. reflexivity.
  - intros w. apply (Hk a eq_refl).
Qed.

Lemma METHODS_get_some E method h :
  METHODS_get E method = inr (Some h) ->
  exists name, method = JStr name /\ lookup name (METHODS E) = Some h.
Proof.
  destruct method; unfold METHODS_get; try discriminate.
  intros [= H]. eexists; split; [reflexivity | exact H].
Qed.

Lemma get_method_obj req d v :
  Py.get req "method" d = inr v -> exists fields, req = JObj fields.
Proof. destruct req; try discriminate. intros _. eexists; reflexivity. Qed.

Lemma get_obj fields k d : exists v, Py.get (JObj fields) k d = inr v.
Proof. simpl. destruct (Py.assoc k fields); eexists; reflexivity. Qed.

Lemma handle_request_obj E fields :
  handle_request E (JObj fields)
  = try_except (dispatch E (JObj fields) (request_id (JObj fields)))
               (report E (request_id (JObj fields))).
Proof.
  unfold handle_request, request_id.
  destruct (get_obj fields "id" (JInt 0)) as [v ->]. reflexivity.
Qed.

(** The request is answered by the "not initialized" error exactly when
    the guard of [main] fires. *)
Lemma dispatch_guard E req name h params w :
  Py.get req "method" (JStr "") = inr (JStr name) ->
  Py.get req "params" (JObj []) = inr params ->
  lookup name (METHODS E) = Some h ->
  dispatch E req (request_id req) w
  = if (negb (String.eqb name "init")
        && match w_page w with None => true | Some _ => false end
        && negb (String.eqb name "close"))%bool
    then (inr tt,
          with_line w (error_line (request_id req) (-32000)
                         "Browser not initialized. Call 'init' first."))
    else bind (h params)
           (fun result => _send_response (request_id req) result None) w.
Proof.
  intros Hm Hp Hl. unfold dispatch, bind at 1 2 3, lift.
  rewrite Hm, Hp. unfold METHODS_get. rewrite Hl.
  unfold bind at 1, get_page_opt. unfold Py.eq_str.
  destruct (negb (name =? "init")%string
            && match w_page w with None => true | Some _ => false end
            && negb (name =? "close")%string)%bool; reflexivity.
Qed.

(** C3.  A request for one of the nine methods that need a browser,
    received while [_page] is [None], is answered by one error response
    ("Browser not initialized", code -32000); nothing else changes: no
    driver call and no sleep is logged, and [_config] and [_page] are as
    before. *)
Theorem ready_only_method_uninitialized
    (E : environment) (req : json) (name : string) (w : world) :
  In name ready_only_methods ->
  Py.get req "method" (JStr "") = inr (JStr name) ->
  w_page w = None ->
  handle_request E req w
  = (inr tt,
     with_line w (error_line (request_id req) (-32000)
                    "Browser not initialized. Call 'init' first.")).
Proof.
  intros Hin Hm Hpage.
  destruct (get_method_obj _ _ _ Hm) as [fields ->].
  destruct (get_obj fields "params" (JObj [])) as [params Hp].
  assert (Hknown : In name method_names).
  { simpl in Hin |- *. tauto. }
  apply (lookup_known E) in Hknown. destruct Hknown as [h Hh].
  rewrite handle_request_obj. unfold try_except.
  rewrite (dispatch_guard E _ name h params w Hm Hp Hh), Hpage.
  assert (Hg : (negb (name =? "init")%string && true
                && negb (name =? "close")%string)%bool = true).
  { simpl in Hin.
    repeat (destruct Hin as [<-|Hin]; [reflexivity|]). contradiction. }
  rewrite Hg. reflexivity.
Qed.

(** C10.  Handling a request whose method is not [init] leaves [_config]
    unchanged, and handling one whose method is neither [init] nor [close]
    leaves [_page] unchanged too, whether the request is answered by a
    result or by an error. *)
Theorem only_init_and_close_write_session
    (E : environment) (req : json) (w : world) :
  Py.get req "method" (JStr "") <> inr (JStr "init") ->
  w_config (snd (handle_request E req w)) = w_config w
  /\ (Py.get req "method" (JStr "") <> inr (JStr "close") ->
      w_page (snd (handle_request E req w)) = w_page w).
Proof.
  intros Hinit.
  assert (Hgen : forall {X} (f : world -> X),
             stable f ->
             (forall l w0, f (with_line w0 l) = f w0) ->
             (Py.get req "method" (JStr "") = inr (JStr "close") ->
              forall params, keeps f (handle_close E params)) ->
             f (snd (handle_request E req w)) = f w).
  { intros X f Hf Hline Hclose.
    assert (Hsend : forall i c m d, keeps f (_send_error i c m d)).
    { intros i c m d w0. apply Hline. }
    assert (Hrep : forall i e, keeps f (report E i e)).
    { intros i e. apply Hsend. }
    unfold handle_request.
    destruct (Py.get req "id" (JInt 0)) as [e|msg_id]; [apply Hrep|].
    apply keeps_try; [|apply Hrep].
    unfold dispatch.
    apply keeps_bind_lift. intros method Hm.
    apply keeps_bind_lift. intros params _.
    apply keeps_bind_lift. intros [h|] Hh; [|apply Hsend].
    apply keeps_bind; [apply keeps_get_page_opt|]. intros p.
    match goal with |- keeps _ (if ?b then _ else _) => destruct b end;
      [apply Hsend|].
    apply keeps_bind; [|intros r w0; apply Hline].
    apply METHODS_get_some in Hh. destruct Hh as (name & -> & Hh).
    destruct (lookup_METHODS E name h Hh)
      as [[-> _]|[[-> ->]|[_ Hkeeps]]].
    - contradiction.
    - now apply Hclose.
    - now apply Hkeeps. }
  split.
  - apply (Hgen _ w_config).
    + split; reflexivity.
    + reflexivity.
    + intros _ params. apply keeps_handle_close.
      * split; reflexivity.
      * reflexivity.
  - intros Hclose. apply (Hgen _ w_page).
    + split; reflexivity.
    + reflexivity.
    + intros Hc. contradiction.
Qed.





(** What [close] does to the world. *)
Lemma close_request E req w :
  Py.get req "method" (JStr "") = inr (JStr "close") ->
  handle_request E req w
  = (inr tt,
     World None (w_config w)
       (w_out w ++ [result_line (request_id req)
                      (JObj [("status", JStr "closed")])])
       (match w_page w with
        | Some pg => w_trace w ++ [EvCall (PageQuit pg)]
        | None => w_trace w
        end)
       (w_rng w)).
Proof.
  intros Hm.
  destruct (get_method_obj _ _ _ Hm) as [fields ->].
  destruct (get_obj fields "params" (JObj [])) as [params Hp].
  rewrite handle_request_obj. unfold try_except.
  rewrite (dispatch_guard E _ "close" (handle_close E) params w Hm Hp eq_refl).
  simpl. rewrite andb_false_r.
  destruct w as [[pg|] cfg out tr rng]; simpl.
  - cbv -[drv request_id app].
    destruct (drv E unit tr (PageQuit pg)) as [e|[]]; reflexivity.
  - reflexivity.
Qed.

(** C6.  A [close] request is answered by the result
    [{"status": "closed"}] in any state and leaves [_page] at [None] and
    [_config] as it was; if [_page] was already [None] no driver call is
    made.  A second [close] right after the first is answered the same
    way and changes nothing but stdout. *)
Theorem close_idempotent (E : environment) (req1 req2 : json) (w : world) :
  Py.get req1 "method" (JStr "") = inr (JStr "close") ->
  Py.get req2 "method" (JStr "") = inr (JStr "close") ->
  let closed := JObj [("status", JStr "closed")] in
  let w1 := snd (handle_request E req1 w) in
  fst (handle_request E req1 w) = inr tt
  /\ w_out w1 = (w_out w ++ [result_line (request_id req1) closed])%list
  /\ w_page w1 = None
  /\ w_config w1 = w_config w
  /\ (w_page w = None -> w_trace w1 = w_trace w)
  /\ handle_request E req2 w1
     = (inr tt, with_line w1 (result_line (request_id req2) closed)).
Proof.
  intros H1 H2. cbv zeta.
  rewrite (close_request E req1 w H1). simpl.
  repeat split.
  - intros ->. reflexivity.
  - rewrite (close_request E req2 _ H2). reflexivity.
Qed.


(** ** Parameter validation *)

Lemma get_missing fields k d :
  Py.assoc k fields = None -> Py.get (JObj fields) k d = inr d.
Proof. intros H. simpl. rewrite H. reflexivity. Qed.

Lemma assoc_app_single k k' v fields :
  Py.assoc k (fields ++ [(k', v)])
  = match Py.assoc k fields with
    | Some x => Some x
    | None => if String.eqb k k' then Some v else None
    end.
Proof.
  induction fields as [|[k0 v0] fields IH]; simpl.
  - reflexivity.
  - destruct (String.eqb k k0); [reflexivity | exact IH].
Qed.

(** A handler that rejects its parameters raises before it does anything. *)
Lemma required_param_rejected E name field fields w :
  In (name, field) required_params ->
  Py.assoc field fields = None ->
  exists h,
    lookup name (METHODS E) = Some h
    /\ h (JObj fields) w
       = (inl (Exn ValueError (field ++ " is required")), w).
Proof.
  intros Hin Hmiss. simpl in Hin.
  destruct Hin as [[= <- <-]|[[= <- <-]|[[= <- <-]|[[= <- <-]|[]]]]];
    eexists; (split; [reflexivity|]).
  - unfold handle_navigate, bind, lift.
    rewrite (get_missing _ _ _ Hmiss). reflexivity.
  - unfold handle_click_element, bind, lift.
    rewrite (get_missing _ _ _ Hmiss). reflexivity.
  - unfold handle_type_text, bind, lift.
    rewrite (get_missing _ _ _ Hmiss).
    destruct (get_obj fields "text" (JStr "")) as [v1 ->].
    destruct (get_obj fields "clear" (JBool true)) as [v2 ->].
    destruct (get_obj fields "humanTyping" (JBool true)) as [v3 ->].
    reflexivity.
  - unfold handle_execute_js, bind, lift.
    rewrite (get_missing _ _ _ Hmiss). reflexivity.
Qed.

(** C2 (as the code behaves).  [navigate] (url), [click_element]
    (selector), [type_text] (selector) and [execute_js] (code) reject a
    request, received while a browser is open, whose params lack that
    field: the response is the error -32000 "<field> is required", with a
    traceback, and nothing else happens (no driver call, no sleep, session
    unchanged).  [click_xy] rejects nothing: without [x] (or [y]) it does
    exactly what it does when that coordinate is given as 0. *)
Theorem missing_required_parameter
    (E : environment) (req : json) (name field : string)
    (params : list (string * json)) (pg : page) (w : world) :
  In (name, field) required_params ->
  Py.get req "method" (JStr "") = inr (JStr name) ->
  Py.get req "params" (JObj []) = inr (JObj params) ->
  Py.assoc field params = None ->
  w_page w = Some pg ->
  handle_request E req w
  = (inr tt,
     with_line w
       (error_line_tb (request_id req) (-32000) (field ++ " is required")
          (format_exc E (Exn ValueError (field ++ " is required")))))
  /\ forall key xy w0,
       key = "x" \/ key = "y" ->
       Py.assoc key xy = None ->
       handle_click_xy E (JObj xy) w0
       = handle_click_xy E (JObj (xy ++ [(key, JInt 0)])) w0.
Proof.
  intros Hin Hm Hp Hmiss Hpage. split.
  - destruct (get_method_obj _ _ _ Hm) as [fields ->].
    destruct (required_param_rejected E name field params w Hin Hmiss)
      as (h & Hh & Hrun).
    rewrite handle_request_obj. unfold try_except.
    rewrite (dispatch_guard E _ name h (JObj params) w Hm Hp Hh), Hpage.
    rewrite andb_false_r. simpl. unfold bind. rewrite Hrun. reflexivity.
  - intros key xy w0 Hkey Hxy.
    unfold handle_click_xy.
    assert (Hget : forall k,
               Py.get (JObj (xy ++ [(key, JInt 0)])) k (JInt 0)
               = Py.get (JObj xy) k (JInt 0)).
    { intros k. simpl. rewrite assoc_app_single.
      destruct (Py.assoc k xy) eqn:Hk; [reflexivity|].
      destruct (String.eqb k key); reflexivity. }
    rewrite !Hget. reflexivity.
Qed.

(** ** The humanization helpers *)

Import Stealth.







Lemma random_uniform_run E a b w :
  random_uniform E a b w
  = (inr (a + (b - a) * unit_of_raw (rnd E (w_rng w)))%Q, draws 1 w).
Proof. reflexivity. Qed.


Lemma unit_of_raw_range r : (0 <= unit_of_raw r)%Q /\ (unit_of_raw r < 1)%Q.
Proof.
  unfold unit_of_raw, Qle, Qlt. cbn [Qnum Qden].
  assert (H := N.mod_upper_bound r (2 ^ 53) ltac:(discriminate)).
  revert H. generalize (r mod 2 ^ 53)%N. intros m.
  change (2 ^ 53)%N with 9007199254740992%N.
  change (2 ^ 53)%positive with 9007199254740992%positive.
  lia.
Qed.

(** A draw between two non-negative bounds is non-negative. *)
Lemma uniform_nonneg (a b u : Q) :
  (0 <= a)%Q -> (0 <= b)%Q -> (0 <= u)%Q -> (u < 1)%Q ->
  (0 <= a + (b - a) * u)%Q.
Proof.
  intros Ha Hb Hu Hu1.
  setoid_replace (a + (b - a) * u)%Q with (a * (1 - u) + b * u)%Q by ring.
  assert (H1 : (0 <= 1 - u)%Q).
  { apply Qlt_le_weak in Hu1. unfold Qminus.
    rewrite <- (Qplus_opp_r u). apply Qplus_le_compat; [assumption|].
    apply Qle_refl. }
  rewrite <- (Qplus_0_l 0).
  apply Qplus_le_compat; apply Qmult_le_0_compat; assumption.
Qed.

Lemma time_sleep_run (s : Q) w :
  (0 <= s)%Q -> time_sleep s w = (inr tt, log (EvSleep s) w).
Proof.
  intros H. unfold time_sleep.
  apply Qle_bool_iff in H. rewrite H. reflexivity.
Qed.


Lemma random_delay_run E (a b : Z) w :
  0 <= a -> 0 <= b ->
  exists d,
    random_delay E (JInt a) (JInt b) w
    = (inr tt, log (EvSleep d) (draws 1 w)).
Proof.
  intros Ha Hb.
  change (random_delay E (JInt a) (JInt b))
    with (bind (random_uniform E (inject_Z a) (inject_Z b))
            (fun u => time_sleep (u / 1000)%Q)).
  unfold bind. rewrite random_uniform_run.
  eexists. apply time_sleep_run.
  destruct (unit_of_raw_range (rnd E (w_rng w))).
  apply Qle_shift_div_l; [reflexivity|].
  rewrite Qmult_0_l.
  apply uniform_nonneg; try assumption;
    unfold Qle; simpl; lia.
Qed.

Lemma random_randint_run E (a b : Z) w :
  a <= b ->
  exists v,
    a <= v <= b
    /\ random_randint E a b w = (inr v, draws 1 w).
Proof.
  intros Hab. unfold random_randint.
  destruct (Z.ltb_spec b a); [lia|].
  unfold bind, randbelow, next_raw, ret. simpl.
  eexists. split; [|reflexivity].
  assert (H' := Z.mod_pos_bound (Z.of_N (rnd E (w_rng w))) (b - a + 1)
                  ltac:(lia)).
  lia.
Qed.

Lemma random_choice_pair_run E (x y : Z) w :
  exists v,
    (v = x \/ v = y)
    /\ random_choice E [x; y] w = (inr v, draws 1 w).
Proof.
  unfold random_choice, bind, randbelow, next_raw, ret. simpl.
  eexists. split; [|reflexivity].
  assert (H' := Z.mod_pos_bound (Z.of_N (rnd E (w_rng w))) 2 ltac:(lia)).
  destruct (Z.eq_dec (Z.of_N (rnd E (w_rng w)) mod 2) 0) as [->|Hne].
  - now left.
  - replace (Z.of_N (rnd E (w_rng w)) mod 2) with 1 by lia. now right.
Qed.

Lemma jitter_scroll_run E pg delta w :
  try_except
    (if 0 <? delta then call_on E (Some pg) (fun p => ScrollDown p delta)
     else call_on E (Some pg) (fun p => ScrollUp p (Z.abs delta)))
    (fun _ => ret tt) w
  = (inr tt, log (jitter_call pg delta) w).
Proof.
  unfold try_except, jitter_call, call_on, call.
  destruct (0 <? delta).
  - destruct (drv E unit (w_trace w) (ScrollDown pg delta)) as [e|[]];
      reflexivity.
  - destruct (drv E unit (w_trace w) (ScrollUp pg (Z.abs delta))) as [e|[]];
      reflexivity.
Qed.

(** C9.  For [max_delta >= 1], [random_scroll_jitter] on a live page
    makes exactly one driver call, the scroll by a delta that is never
    zero: the delta is the sampled value of [[-max_delta, max_delta]], or
    30 or -30 when the sample is 0; it scrolls down by [delta] when that
    is positive and up by [-delta] otherwise.  One sleep follows, and the
    call returns without raising whatever the driver did. *)
Theorem scroll_jitter_never_zero
    (E : environment) (pg : page) (max_delta : Z) (w : world) :
  1 <= max_delta ->
  exists delta d w',
    random_scroll_jitter E (Some pg) max_delta w = (inr tt, w')
    /\ delta <> 0
    /\ 0 < Z.abs delta
    /\ (- max_delta <= delta <= max_delta \/ delta = 30 \/ delta = -30)
    /\ w_trace w' = (w_trace w ++ [jitter_call pg delta; EvSleep d])%list.
Proof.
  intros Hmax. unfold random_scroll_jitter.
  destruct (random_randint_run E (- max_delta) max_delta w ltac:(lia))
    as (d0 & Hd0 & Hrun0).
  unfold bind at 1. rewrite Hrun0.
  destruct (Z.eqb_spec d0 0) as [Hz|Hnz].
  - destruct (random_choice_pair_run E (-30) 30 (draws 1 w))
      as (delta & Hdelta & Hrun1).
    unfold bind at 1. rewrite Hrun1.
    unfold bind at 1. rewrite jitter_scroll_run.
    destruct (random_delay_run E 100 300
                (log (jitter_call pg delta) (draws 1 (draws 1 w)))
                ltac:(lia) ltac:(lia)) as (d & Hrun2).
    exists delta, d. eexists. split; [exact Hrun2|].
    repeat split; try lia.
    simpl. rewrite <- app_assoc. reflexivity.
  - unfold bind at 1. unfold ret at 1.
    unfold bind at 1. rewrite jitter_scroll_run.
    destruct (random_delay_run E 100 300
                (log (jitter_call pg d0) (draws 1 w))
                ltac:(lia) ltac:(lia)) as (d & Hrun2).
    exists d0, d. eexists. split; [exact Hrun2|].
    repeat split; try lia.
    simpl. rewrite <- app_assoc. reflexivity.
Qed.






(* ================================================================== *)
(** * The properties at concrete inputs                                *)
(* ================================================================== *)

(** C2, the claim as written fails: a [click_xy] request without [x] and
    [y], sent while a browser is open, is not rejected.  The driver is
    asked to click at (0, 0) and the response is a success. *)
Lemma click_xy_defaults_counterexample :
  let w' := snd (handle_request quiet_env (request 7 "click_xy" (JObj []))
                   ready_world) in
  w_out w'
  = [result_line (JInt 7)
       (JObj [("success", JBool true); ("x", JInt 0); ("y", JInt 0)])]
  /\ (exists d,
         w_trace w' = [EvCall (ActionsClick (Page 1) 0 0); EvSleep d])
  /\ ~ (exists err, w_out w' = [JObj [("id", JInt 7); ("error", err)]]
                    /\ w_trace w' = []).
Proof.
  vm_compute. split; [reflexivity|]. split.
  - eexists. reflexivity.
  - intros (err & H & _). discriminate H.
Qed.


Lemma missing_required_parameter_witness :
  handle_request quiet_env (request 2 "navigate" (JObj [])) ready_world
  = (inr tt,
     with_line ready_world
       (error_line_tb (JInt 2) (-32000) "url is required"
          (format_exc quiet_env (Exn ValueError "url is required")))).
Proof.
  apply (missing_required_parameter quiet_env (request 2 "navigate" (JObj []))
           "navigate" "url" [] (Page 1) ready_world);
    [simpl; tauto | reflexivity | reflexivity | reflexivity | reflexivity].
Defined.

Lemma ready_only_method_uninitialized_witness :
  handle_request quiet_env
    (request 4 "navigate" (JObj [("url", JStr "https://example.org")]))
    fresh_world
  = (inr tt,
     with_line fresh_world
       (error_line (JInt 4) (-32000)
          "Browser not initialized. Call 'init' first.")).
Proof.
  apply (ready_only_method_uninitialized quiet_env
           (request 4 "navigate" (JObj [("url", JStr "https://example.org")]))
           "navigate" fresh_world);
    [simpl; tauto | reflexivity | reflexivity].
Defined.



Lemma close_idempotent_witness :
  let closed := JObj [("status", JStr "closed")] in
  let w1 := snd (handle_request quiet_env (request 8 "close" (JObj []))
                   ready_world) in
  fst (handle_request quiet_env (request 8 "close" (JObj [])) ready_world)
  = inr tt
  /\ w_out w1 = [result_line (JInt 8) closed]
  /\ w_page w1 = None
  /\ w_config w1 = w_config ready_world
  /\ (w_page ready_world = None -> w_trace w1 = w_trace ready_world)
  /\ handle_request quiet_env (request 9 "close" (JObj [])) w1
     = (inr tt, with_line w1 (result_line (JInt 9) closed)).
Proof.
  apply (close_idempotent quiet_env (request 8 "close" (JObj []))
           (request 9 "close" (JObj [])) ready_world);
    reflexivity.
Defined.



Lemma scroll_jitter_never_zero_witness :
  exists delta d w',
    random_scroll_jitter quiet_env (Some (Page 1)) 30 fresh_world = (inr tt, w')
    /\ delta <> 0
    /\ 0 < Z.abs delta
    /\ (- 30 <= delta <= 30 \/ delta = 30 \/ delta = -30)
    /\ w_trace w' = [jitter_call (Page 1) delta; EvSleep d].
Proof.
  apply (scroll_jitter_never_zero quiet_env (Page 1) 30 fresh_world). lia.
Defined.

Lemma only_init_and_close_write_session_witness :
  let req := request 6 "scroll" (JObj [("direction", JStr "down")]) in
  w_config (snd (handle_request quiet_env req ready_world))
  = w_config ready_world
  /\ (Py.get req "method" (JStr "") <> inr (JStr "close") ->
      w_page (snd (handle_request quiet_env req ready_world))
      = w_page ready_world).
Proof.
  apply (only_init_and_close_write_session quiet_env
           (request 6 "scroll" (JObj [("direction", JStr "down")]))
           ready_world).
  discriminate.
Defined.

(* ================================================================== *)
(** * Further properties of the code                                   *)
(* ================================================================== *)

(** ** The transport loop *)







(** ** What is logged: a second frame rule

    [emits P m] composes like [keeps]: the events of a sequence are the
    events of its parts. *)

Section Emits.

Variable P : event -> bool.
Variable E : environment.

Lemma emits_silent {A} (m : M A) :
  (forall w, w_trace (snd (m w)) = w_trace w) -> emits P m.
Proof.
  intros H w. exists []. rewrite H, app_nil_r. split; reflexivity.
Qed.

Lemma emits_ret {A} (a : A) : emits P (ret a).
Proof. apply emits_silent. reflexivity. Qed.

Lemma emits_raise {A} (e : exn) : emits P (@raise A e).
Proof. apply emits_silent. reflexivity. Qed.

Lemma emits_lift {A} (r : exn + A) : emits P (lift r).
Proof. apply emits_silent. reflexivity. Qed.

Lemma emits_get_page_opt : emits P get_page_opt.
Proof. apply emits_silent. reflexivity. Qed.

Lemma emits_get_config : emits P get_config.
Proof. apply emits_silent. reflexivity. Qed.

Lemma emits_set_page p : emits P (set_page p).
Proof. apply emits_silent. reflexivity. Qed.

Lemma emits_set_config c : emits P (set_config c).
Proof. apply emits_silent. reflexivity. Qed.

Lemma emits_write_line l : emits P (write_line l).
Proof. apply emits_silent. reflexivity. Qed.

Lemma emits_next_raw : emits P (next_raw E).
Proof. apply emits_silent. reflexivity. Qed.

Lemma emits_call {T} (c : dcall T) :
  P (EvCall c) = true -> emits P (call E c).
Proof.
  intros H w. exists [EvCall c]. split; [reflexivity|].
  simpl. now rewrite H.
Qed.

Lemma emits_call_on {T} (pg : option page) (c : page -> dcall T) :
  (forall p, P (EvCall (c p)) = true) -> emits P (call_on E pg c).
Proof.
  intros H. destruct pg; [apply emits_call, H | apply emits_raise].
Qed.

Lemma emits_time_sleep (s : Q) :
  P (EvSleep s) = true -> emits P (time_sleep s).
Proof.
  intros H. unfold time_sleep.
  destruct (Qle_bool 0 s); [|apply emits_raise].
  intros w. exists [EvSleep s]. split; [reflexivity|].
  simpl. now rewrite H.
Qed.

Lemma emits_bind {A B} (m : M A) (k : A -> M B) :
  emits P m -> (forall a, emits P (k a)) -> emits P (bind m k).
Proof.
  intros Hm Hk w. unfold bind.
  destruct (Hm w) as (evs & Htr & Hall).
  destruct (m w) as [[e|a] w1]; simpl in Htr.
  - exists evs. split; assumption.
  - destruct (Hk a w1) as (evs' & Htr' & Hall').
    exists (evs ++ evs')%list. split.
    + rewrite Htr', Htr, app_assoc. reflexivity.
    + rewrite forallb_app, Hall, Hall'. reflexivity.
Qed.

Lemma emits_bind_lift {A B} (r : exn + A) (k : A -> M B) :
  (forall a, r = inr a -> emits P (k a)) -> emits P (bind (lift r) k).
Proof.
  intros Hk. destruct r as [e|a].
  - apply emits_silent. reflexivity.
  - intros w. apply (Hk a eq_refl).
Qed.

Lemma emits_try {A} (m : M A) (h : exn -> M A) :
  emits P m -> (forall e, emits P (h e)) -> emits P (try_except m h).
Proof.
  intros Hm Hh w. unfold try_except.
  destruct (Hm w) as (evs & Htr & Hall).
  destruct (m w) as [[e|a] w1]; simpl in Htr.
  - destruct (Hh e w1) as (evs' & Htr' & Hall').
    exists (evs ++ evs')%list. split.
    + rewrite Htr', Htr, app_assoc. reflexivity.
    + rewrite forallb_app, Hall, Hall'. reflexivity.
  - exists evs. split; assumption.
Qed.

Lemma emits_for_each {A} (l : list A) (body : A -> M loop_ctl) :
  (forall a, emits P (body a)) -> emits P (for_each l body).
Proof.
  intros Hb. induction l as [|x l IH]; simpl.
  - apply emits_ret.
  - apply emits_bind; [apply Hb|]. intros [|]; [assumption | apply emits_ret].
Qed.

Lemma emits_map_m {A B} (g : A -> M B) (l : list A) :
  (forall a, emits P (g a)) -> emits P (map_m g l).
Proof.
  intros Hg. induction l as [|x l IH]; simpl.
  - apply emits_ret.
  - apply emits_bind; [apply Hg|]. intros y.
    apply emits_bind; [assumption|]. intros ys. apply emits_ret.
Qed.

End Emits.

(** The helpers a handler is made of. *)
Create HintDb code discriminated.

#[local] Hint Unfold
  random_random random_uniform random_randint random_choice randbelow
  Stealth.random_delay Stealth.bezier_curve_points Stealth.bezier_mouse_move
  Stealth.random_scroll_jitter Stealth.human_type Stealth.human_type_char
  Stealth.get_random_viewport_point Stealth.add_human_noise_to_coords
  Bridge.config_get Bridge.page_call Bridge._get_delay_range
  Bridge._apply_human_delay Bridge.element_description
  Bridge._send_response Bridge._send_error Bridge.report : code.

#[local] Hint Unfold
  Bridge.handle_init Bridge.handle_navigate Bridge.handle_click_element
  Bridge.handle_click_xy Bridge.handle_type_text Bridge.handle_screenshot
  Bridge.handle_get_dom_map Bridge.handle_scroll Bridge.handle_wait
  Bridge.handle_execute_js Bridge.handle_close Bridge.handle_get_page_info
  : code.

(** Decomposes an [emits] goal along the code, down to the driver calls
    and sleeps, whose events are checked against the predicate. *)
Ltac emits_step :=
  lazymatch goal with
  | |- emits _ (ret _) => apply emits_ret
  | |- emits _ (raise _) => apply emits_raise
  | |- emits _ (lift _) => apply emits_lift
  | |- emits _ get_page_opt => apply emits_get_page_opt
  | |- emits _ get_config => apply emits_get_config
  | |- emits _ (set_page _) => apply emits_set_page
  | |- emits _ (set_config _) => apply emits_set_config
  | |- emits _ (write_line _) => apply emits_write_line
  | |- emits _ (next_raw _) => apply emits_next_raw
  | |- emits _ (call _ _) => apply emits_call; reflexivity
  | |- emits _ (call_on _ _ _) => apply emits_call_on; intros ?; reflexivity
  | |- emits _ (time_sleep _) => apply emits_time_sleep; reflexivity
  | |- emits _ (bind _ _) => apply emits_bind; [ | intros ? ]
  | |- emits _ (try_except _ _) => apply emits_try; [ | intros ? ]
  | |- emits _ (for_each _ _) => apply emits_for_each; intros ?
  | |- emits _ (map_m _ _) => apply emits_map_m; intros ?
  | |- emits _ (match ?x with _ => _ end) => destruct x
  end.

Ltac emits_code :=
  repeat (autounfold with code; cbv beta; emits_step).

Lemma lookup_in {A} (name : string) (l : list (string * A)) (v : A) :
  lookup name l = Some v -> In (name, v) l.
Proof.
  induction l as [|[k x] l IH]; simpl; [discriminate|].
  destruct (String.eqb_spec name k) as [->|_].
  - intros [= ->]. now left.
  - intros H. right. now apply IH.
Qed.

(** A property of the log of every handler a request can reach is a
    property of the log of handling the request. *)
Lemma emits_handle_request E P req :
  (forall name h params,
      Py.get req "method" (JStr "") = inr (JStr name) ->
      lookup name (METHODS E) = Some h ->
      emits P (h params)) ->
  emits P (handle_request E req).
Proof.
  intros Hh. unfold handle_request.
  destruct (Py.get req "id" (JInt 0)) as [e|msg_id]; [emits_code|].
  apply emits_try; [|intros e; emits_code].
  unfold dispatch.
  apply emits_bind_lift. intros method Hm.
  apply emits_bind_lift. intros params _.
  apply emits_bind_lift. intros [h|] Hget; [|emits_code].
  apply emits_bind; [apply emits_get_page_opt|]. intros p.
  match goal with |- emits _ (if ?b then _ else _) => destruct b end;
    [emits_code|].
  apply emits_bind; [|intros r; emits_code].
  apply METHODS_get_some in Hget. destruct Hget as (name & -> & Hl).
  apply (Hh name h params Hm Hl).
Qed.

(** X3.  Handling a request whose method is not [close] never quits a
    browser page: no [quit] call is among the events it logs.  In
    particular an [init] sent while a page is open leaves that page
    running. *)
Theorem only_close_quits (E : environment) (req : json) (w : world) :
  Py.get req "method" (JStr "") <> inr (JStr "close") ->
  exists evs,
    w_trace (snd (handle_request E req w)) = (w_trace w ++ evs)%list
    /\ forallb (fun ev => negb (is_quit ev)) evs = true.
Proof.
  intros Hclose. apply emits_handle_request.
  intros name h params Hm Hin. apply lookup_in in Hin. simpl in Hin.
  repeat (destruct Hin as [[= <- <-]|Hin]; [try solve [emits_code]|]);
    try contradiction.
Qed.

(** X4.  Handling an [init], [screenshot], [get_dom_map], [execute_js],
    [close] or [get_page_info] request never sleeps: these handlers apply
    no humanized delay, and neither do the error paths of the
    dispatcher. *)
Theorem undelayed_methods_never_sleep
    (E : environment) (req : json) (name : string) (w : world) :
  In name undelayed_methods ->
  Py.get req "method" (JStr "") = inr (JStr name) ->
  exists evs,
    w_trace (snd (handle_request E req w)) = (w_trace w ++ evs)%list
    /\ forallb (fun ev => negb (is_sleep ev)) evs = true.
Proof.
  intros Hname Hm. apply emits_handle_request.
  intros name' h params Hm' Hl.
  rewrite Hm in Hm'. injection Hm' as <-.
  simpl in Hname.
  repeat (destruct Hname as [<-|Hname];
          [ injection Hl as <-; emits_code | ]).
  contradiction.
Qed.

(** ** The Bezier path *)










(** X7.  The two degenerate point counts of [bezier_curve_points]: with
    [num_points = 0] the first division raises [ZeroDivisionError], and
    with a negative [num_points] the result is the empty list.  In both
    cases the eight random draws for the control points have been made
    and nothing else has happened. *)
Theorem bezier_curve_points_degenerate
    (E : environment) (start end_ : Q * Q) (n : Z) (w : world) :
  (n = 0 ->
   bezier_curve_points E start end_ n w
   = (inl (Exn ZeroDivisionError "division by zero"), draws 8 w))
  /\ (n < 0 ->
      bezier_curve_points E start end_ n w = (inr [], draws 8 w)).
Proof.
  destruct start as [x0 y0], end_ as [x3 y3].
  unfold bezier_curve_points.
  repeat (unfold bind at 1; rewrite random_uniform_run).
  change (draws 1 (draws 1 (draws 1 (draws 1 (draws 1 (draws 1
            (draws 1 (draws 1 w)))))))) with (draws 8 w).
  split.
  - intros ->. reflexivity.
  - intros Hn. unfold Py.range.
    replace (Z.to_nat (n + 1)) with 0%nat by lia. reflexivity.
Qed.


(** ** Delays, noise and jitter *)



(** X10.  For [max_offset >= 0], [add_human_noise_to_coords] returns a
    point whose coordinates are never negative and lie within
    [max_offset] of the given ones (clamped at 0); it consumes two random
    draws and does nothing else. *)
Theorem add_human_noise_bounds
    (E : environment) (x y max_offset : Z) (w : world) :
  0 <= max_offset ->
  exists nx ny,
    add_human_noise_to_coords E x y max_offset w = (inr (nx, ny), draws 2 w)
    /\ 0 <= nx /\ 0 <= ny
    /\ Z.max 0 (x - max_offset) <= nx <= Z.max 0 (x + max_offset)
    /\ Z.max 0 (y - max_offset) <= ny <= Z.max 0 (y + max_offset).
Proof.
  intros Hm. unfold add_human_noise_to_coords.
  destruct (random_randint_run E (- max_offset) max_offset w ltac:(lia))
    as (ox & Hox & Hrun0).
  unfold bind at 1. rewrite Hrun0.
  destruct (random_randint_run E (- max_offset) max_offset (draws 1 w)
              ltac:(lia)) as (oy & Hoy & Hrun1).
  unfold bind at 1. rewrite Hrun1.
  exists (Z.max 0 (x + ox)), (Z.max 0 (y + oy)).
  split; [reflexivity|]. lia.
Qed.



(** X12.  The two edge cases of [random_scroll_jitter].  Without a page
    (and [max_delta >= 0]) the failed scroll is swallowed: no driver call
    is made, the call returns normally and only the sleep is logged.
    With a negative [max_delta] the sampling raises [ValueError] before
    anything is done. *)
Theorem scroll_jitter_edge_cases
    (E : environment) (max_delta : Z) (w : world) :
  (0 <= max_delta ->
   exists d w',
     random_scroll_jitter E None max_delta w = (inr tt, w')
     /\ w_trace w' = (w_trace w ++ [EvSleep d])%list)
  /\ (max_delta < 0 ->
      exists msg,
        random_scroll_jitter E None max_delta w
        = (inl (Exn ValueError msg), w)).
Proof.
  split.
  - intros Hmax. unfold random_scroll_jitter.
    destruct (random_randint_run E (- max_delta) max_delta w ltac:(lia))
      as (d0 & Hd0 & Hrun0).
    unfold bind at 1. rewrite Hrun0.
    assert (Hscroll : forall delta w0,
               try_except
                 (if 0 <? delta
                  then call_on E None (fun p => ScrollDown p delta)
                  else call_on E None (fun p => ScrollUp p (Z.abs delta)))
                 (fun _ => ret tt) w0 = (inr tt, w0)).
    { intros delta w0. unfold try_except. destruct (0 <? delta); reflexivity. }
    destruct (Z.eqb_spec d0 0) as [Hz|Hnz].
    + destruct (random_choice_pair_run E (-30) 30 (draws 1 w))
        as (delta & _ & Hrun1).
      unfold bind at 1. rewrite Hrun1.
      unfold bind at 1. rewrite Hscroll.
      destruct (random_delay_run E 100 300 (draws 1 (draws 1 w))
                  ltac:(lia) ltac:(lia)) as (d & Hrun2).
      exists d. eexists. split; [exact Hrun2 | reflexivity].
    + unfold bind at 1. unfold ret at 1.
      unfold bind at 1. rewrite Hscroll.
      destruct (random_delay_run E 100 300 (draws 1 w)
                  ltac:(lia) ltac:(lia)) as (d & Hrun2).
      exists d. eexists. split; [exact Hrun2 | reflexivity].
  - intros Hmax. unfold random_scroll_jitter, bind, random_randint.
    destruct (Z.ltb_spec max_delta (- max_delta)); [|lia].
    eexists. reflexivity.
Qed.

(** ** [init] *)

Lemma stable_page : stable w_page.
Proof. split; reflexivity. Qed.

Lemma stable_config : stable w_config.
Proof. split; reflexivity. Qed.

(** Frame goals about the body of [handle_init]. *)
Ltac frame_init Hf :=
  unfold config_get; cbv beta;
  repeat (lazymatch goal with
          | |- keeps _ (set_page _) => intros ?; reflexivity
          | |- keeps _ (set_config _) => intros ?; reflexivity
          | |- _ => frame_step Hf
          end; cbv beta).

(** X13.  [handle_init] assigns [_page] only at its very end: if it
    returns, [_page] holds a page and the result is
    [{"status": "initialized", "windowSize": {"width": .., "height": ..}}];
    if it raises, at whatever step, [_page] is what it was before (a page
    that was open stays referenced, and is not closed). *)
Theorem init_sets_page_on_success_only
    (E : environment) (params : json) (w : world) :
  match handle_init E params w with
  | (inr result, w') =>
      (exists pg, w_page w' = Some pg)
      /\ exists width height,
          result = JObj [("status", JStr "initialized");
                         ("windowSize",
                          JObj [("width", width); ("height", height)])]
  | (inl _, w') => w_page w' = w_page w
  end.
Proof.
  pose (good := fun m : M json =>
          forall w0,
            match m w0 with
            | (inr result, w') =>
                (exists pg, w_page w' = Some pg)
                /\ exists width height,
                    result = JObj [("status", JStr "initialized");
                                   ("windowSize",
                                    JObj [("width", width);
                                          ("height", height)])]
            | (inl _, w') => w_page w' = w_page w0
            end).
  assert (Hbind : forall A (m : M A) (k : A -> M json),
             keeps w_page m -> (forall a, good (k a)) -> good (bind m k)).
  { intros A m k Hm Hk w0. unfold bind. specialize (Hm w0).
    destruct (m w0) as [[e|a] w1]; simpl in Hm; [exact Hm|].
    specialize (Hk a w1). destruct (k a w1) as [[e|r] w2].
    - now rewrite Hk.
    - exact Hk. }
  enough (Hgood : good (handle_init E params)) by apply Hgood.
  unfold handle_init.
  repeat (apply Hbind; [solve [frame_init stable_page] | intros ?]).
  intros w0. cbv [bind set_page ret].
  split; [eexists; reflexivity|]. eexists. eexists. reflexivity.
Qed.

(** X14.  [handle_init] replaces [_config] before it launches anything:
    once the import of DrissionPage has gone through, [_config] is
    [params.get("stealth", {})] whether the rest of [init] succeeds or
    raises (so a failed [init] still overwrites the configuration of a
    running session). *)
Theorem init_replaces_config_first
    (E : environment) (params cfg : json) (w : world) :
  drv E unit (w_trace w) ImportDrissionPage = inr tt ->
  Py.get params "stealth" (JObj []) = inr cfg ->
  w_config (snd (handle_init E params w)) = cfg.
Proof.
  intros Himport Hget. unfold handle_init.
  unfold bind at 1, try_except at 1, call at 1. rewrite Himport.
  unfold bind at 1, lift at 1. rewrite Hget.
  unfold bind at 1, set_config at 1.
  match goal with
  | |- w_config (snd (?m ?w1)) = _ =>
      assert (Hrest : keeps w_config m)
  end.
  { repeat (lazymatch goal with
            | |- keeps _ (bind _ _) => apply keeps_bind; [ | intros ? ]
            | |- _ => solve [frame_init stable_config]
            end). }
  rewrite Hrest. reflexivity.
Qed.

(** X15.  When DrissionPage cannot be imported, [handle_init] raises
    [RuntimeError] with the installation hint; the session is untouched
    and nothing but the import was attempted. *)
Theorem init_without_drissionpage
    (E : environment) (params : json) (msg : string) (w : world) :
  drv E unit (w_trace w) ImportDrissionPage = inl (Exn ImportError msg) ->
  handle_init E params w
  = (inl (Exn RuntimeError
            "DrissionPage is not installed. Run: pip install DrissionPage"),
     log (EvCall ImportDrissionPage) w).
Proof.
  intros Himport. unfold handle_init.
  unfold bind at 1, try_except at 1, call at 1. rewrite Himport.
  reflexivity.
Qed.

(** ** From a handler to the response

    With a page open the guard of [main] lets every method through, and
    the response is made from what the handler returns or raises. *)

Lemma handler_reported E req name h params pg w :
  Py.get req "method" (JStr "") = inr (JStr name) ->
  Py.get req "params" (JObj []) = inr params ->
  lookup name (METHODS E) = Some h ->
  w_page w = Some pg ->
  handle_request E req w
  = match h params w with
    | (inr result, w') =>
        (inr tt, with_line w' (result_line (request_id req) result))
    | (inl e, w') =>
        (inr tt,
         with_line w'
           (error_line_tb (request_id req) (-32000) (str_exn e)
              (format_exc E e)))
    end.
Proof.
  intros Hm Hp Hl Hpage.
  destruct (get_method_obj _ _ _ Hm) as [fields ->].
  rewrite handle_request_obj. unfold try_except.
  rewrite (dispatch_guard E _ name h params w Hm Hp Hl), Hpage.
  rewrite andb_false_r. simpl. unfold bind.
  destruct (h params w) as [[e|r] w']; reflexivity.
Qed.

(** X16.  [click_element] and [type_text] on a selector that matches
    nothing: the response is the error -32000 "Element not found:
    <selector>", and the element lookup is the only thing that was done
    (no click, no typing, no delay). *)
Theorem element_not_found
    (E : environment) (req : json) (name : string)
    (fields : list (string * json)) (selector : json) (pg : page)
    (w : world) :
  name = "click_element" \/ name = "type_text" ->
  Py.get req "method" (JStr "") = inr (JStr name) ->
  Py.get req "params" (JObj []) = inr (JObj fields) ->
  Py.get (JObj fields) "selector" (JStr "") = inr selector ->
  Py.truthy selector = true ->
  w_page w = Some pg ->
  drv E (option elem) (w_trace w) (PageEle pg selector) = inr None ->
  let e := Exn ValueError ("Element not found: " ++ py_str E selector) in
  handle_request E req w
  = (inr tt,
     with_line (log (EvCall (PageEle pg selector)) w)
       (error_line_tb (request_id req) (-32000) (str_exn e)
          (format_exc E e))).
Proof.
  intros Hname Hm Hp Hsel Htruthy Hpage Hdrv. cbv zeta.
  destruct Hname as [-> | ->].
  - rewrite (handler_reported E req "click_element" (handle_click_element E)
               (JObj fields) pg w Hm Hp eq_refl Hpage).
    unfold handle_click_element.
    unfold bind at 1, lift at 1. rewrite Hsel, Htruthy. cbn [negb].
    unfold bind at 1, page_call, bind at 1, get_page_opt at 1.
    rewrite Hpage. unfold call_on, call. rewrite Hdrv. reflexivity.
  - rewrite (handler_reported E req "type_text" (handle_type_text E)
               (JObj fields) pg w Hm Hp eq_refl Hpage).
    unfold handle_type_text.
    unfold bind at 1, lift at 1. rewrite Hsel.
    destruct (get_obj fields "text" (JStr "")) as [v1 Hv1].
    destruct (get_obj fields "clear" (JBool true)) as [v2 Hv2].
    destruct (get_obj fields "humanTyping" (JBool true)) as [v3 Hv3].
    unfold bind at 1, lift at 1. rewrite Hv1.
    unfold bind at 1, lift at 1. rewrite Hv2.
    unfold bind at 1, lift at 1. rewrite Hv3.
    rewrite Htruthy. cbn [negb].
    unfold bind at 1, page_call, bind at 1, get_page_opt at 1.
    rewrite Hpage. unfold call_on, call. rewrite Hdrv. reflexivity.
Qed.

(** ** Clicks *)




(** Stepping through a sequence whose first part is known. *)
Lemma bind_run {A B} (m : M A) (k : A -> M B) (a : A) (w w' : world) :
  m w = (inr a, w') -> bind m k w = k a w'.
Proof. intros H. unfold bind. now rewrite H. Qed.

Lemma config_get_run (cfg : list (string * json)) key default w :
  w_config w = JObj cfg ->
  config_get key default w
  = (inr (match Py.assoc key cfg with Some v => v | None => default end), w).
Proof.
  intros H. unfold config_get, bind, get_config, lift. rewrite H. simpl.
  destruct (Py.assoc key cfg); reflexivity.
Qed.




(** ** Screenshots, waits, scrolling, navigation *)

Lemma page_call_run E {T} (c : page -> dcall T) (pg : page) w :
  w_page w = Some pg ->
  page_call E c w = (drv E T (w_trace w) (c pg), log (EvCall (c pg)) w).
Proof.
  intros H. unfold page_call, bind, get_page_opt. rewrite H.
  unfold call_on, call. destruct (drv E T (w_trace w) (c pg)); reflexivity.
Qed.

(** X19.  The fallback of [handle_screenshot]: when the first
    [get_screenshot] call raises a [TypeError], a second call with
    [as_bytes=True] is made and its bytes are returned base64-encoded,
    still labelled with the format that was requested; an exception of
    any other class is not retried and propagates after that one call. *)
Theorem screenshot_fallback
    (E : environment) (fields cfg : list (string * json)) (fmt full : json)
    (pg : page) (e : exn) (w : world) :
  Py.get (JObj fields) "format" (JStr "png") = inr fmt ->
  Py.get (JObj fields) "fullPage" (JBool false) = inr full ->
  w_page w = Some pg ->
  w_config w = JObj cfg ->
  drv E string (w_trace w) (PageGetScreenshot pg fmt (Some full)) = inl e ->
  let first := EvCall (PageGetScreenshot pg fmt (Some full)) in
  let second := EvCall (PageGetScreenshot pg (JBool true) None) in
  (exn_class e = TypeError ->
   forall bytes,
     drv E string (w_trace w ++ [first])
       (PageGetScreenshot pg (JBool true) None) = inr bytes ->
     handle_screenshot E (JObj fields) w
     = (inr (JObj [("base64", JStr (b64encode E bytes)); ("format", fmt);
                   ("width", match Py.assoc "windowWidth" cfg with
                             | Some v => v | None => JInt 1920 end);
                   ("height", match Py.assoc "windowHeight" cfg with
                              | Some v => v | None => JInt 1080 end)]),
        log second (log first w)))
  /\ (exn_class e <> TypeError ->
      handle_screenshot E (JObj fields) w = (inl e, log first w)).
Proof.
  intros Hfmt Hfull Hpage Hcfg Hfirst. cbv zeta.
  unfold handle_screenshot.
  rewrite (bind_run _ _ fmt w w) by (unfold lift; now rewrite Hfmt).
  rewrite (bind_run _ _ full w w) by (unfold lift; now rewrite Hfull).
  set (w1 := log (EvCall (PageGetScreenshot pg fmt (Some full))) w).
  split.
  - intros Hclass bytes Hsecond.
    assert (Htry :
              try_except
                (page_call E (fun pg0 => PageGetScreenshot pg0 fmt (Some full)))
                (fun e0 =>
                   match exn_class e0 with
                   | TypeError =>
                       page_call E
                         (fun pg0 => PageGetScreenshot pg0 (JBool true) None)
                   | _ => raise e0
                   end) w
              = (inr bytes,
                 log (EvCall (PageGetScreenshot pg (JBool true) None)) w1)).
    { unfold try_except. rewrite (page_call_run E _ pg w Hpage), Hfirst.
      rewrite Hclass. fold w1.
      rewrite (page_call_run E _ pg w1 Hpage).
      unfold w1 at 1. simpl w_trace. rewrite Hsecond. reflexivity. }
    rewrite (bind_run _ _ _ _ _ Htry). cbv zeta.
    set (w2 := log (EvCall (PageGetScreenshot pg (JBool true) None)) w1).
    rewrite (bind_run _ _ _ _ _ (config_get_run cfg _ _ w2 Hcfg)).
    rewrite (bind_run _ _ _ _ _ (config_get_run cfg _ _ w2 Hcfg)).
    reflexivity.
  - intros Hclass. unfold bind, try_except.
    rewrite (page_call_run E _ pg w Hpage), Hfirst. fold w1.
    destruct (exn_class e); try reflexivity. contradiction.
Qed.

(** X20.  [handle_wait] with a selector never raises once [ms] has been
    read: whatever the driver does (time out, fail, or not be there at
    all), the outcome is a result, either [{"success": true, ...}] or
    [{"success": false, ..., "timedOut": true}], and nothing is slept. *)
Theorem wait_for_selector_never_raises
    (E : environment) (fields : list (string * json)) (mv selector : json)
    (ms : Z) (w : world) :
  Py.get (JObj fields) "ms" (JInt 1000) = inr mv ->
  py_int E mv = inr ms ->
  Py.get (JObj fields) "selector" JNull = inr selector ->
  Py.truthy selector = true ->
  exists result w',
    handle_wait E (JObj fields) w = (inr result, w')
    /\ (result = JObj [("success", JBool true); ("waited_for", selector)]
        \/ result = JObj [("success", JBool false); ("waited_for", selector);
                          ("timedOut", JBool true)])
    /\ exists evs, w_trace w' = (w_trace w ++ evs)%list
                   /\ forallb (fun ev => negb (is_sleep ev)) evs = true.
Proof.
  intros Hms Hint Hsel Htruthy. unfold handle_wait.
  rewrite (bind_run _ _ mv w w) by (unfold lift; now rewrite Hms).
  rewrite (bind_run _ _ ms w w) by (unfold lift; now rewrite Hint).
  rewrite (bind_run _ _ selector w w) by (unfold lift; now rewrite Hsel).
  rewrite Htruthy.
  match goal with
  | |- context [try_except ?m ?h w] =>
      destruct (emits_try (fun ev => negb (is_sleep ev)) m h
                  ltac:(emits_code) ltac:(intros; emits_code) w)
        as (evs & Htr & Hall);
      assert (Hres : exists result w',
                 try_except m h w = (inr result, w')
                 /\ (result = JObj [("success", JBool true);
                                    ("waited_for", selector)]
                     \/ result = JObj [("success", JBool false);
                                       ("waited_for", selector);
                                       ("timedOut", JBool true)]))
  end.
  { unfold try_except, bind.
    destruct (page_call E
                (fun pg => WaitEleDisplayed pg selector (inject_Z ms / 1000)) w)
      as [[e|[]] w1].
    - eexists. eexists. split; [reflexivity | now right].
    - eexists. eexists. split; [reflexivity | now left]. }
  destruct Hres as (result & w' & Hrun & Hshape).
  rewrite Hrun in Htr |- *. exists result, w'.
  split; [reflexivity|]. split; [exact Hshape|].
  exists evs. split; assumption.
Qed.


Lemma apply_human_delay_default_run E (cfg : list (string * json)) w :
  w_config w = JObj cfg ->
  Py.assoc "minDelayMs" cfg = None ->
  Py.assoc "maxDelayMs" cfg = None ->
  exists d,
    _apply_human_delay E w = (inr tt, log (EvSleep d) (draws 1 w)).
Proof.
  intros Hcfg Hmin Hmax. unfold _apply_human_delay, _get_delay_range.
  unfold bind at 1.
  rewrite (bind_run _ _ _ w w (config_get_run cfg _ _ w Hcfg)), Hmin.
  rewrite (bind_run _ _ _ w w (config_get_run cfg _ _ w Hcfg)), Hmax.
  unfold ret at 1. cbv beta iota.
  apply random_delay_run; lia.
Qed.

(** X22.  [handle_scroll] with a direction that is none of "down", "up",
    "top", "bottom" scrolls nothing and still reports success: with
    natural movement switched off and default delays, the only thing
    that happens is the humanized delay, and the result echoes the
    direction. *)
Theorem scroll_unknown_direction
    (E : environment) (fields cfg : list (string * json))
    (direction av natural : json) (amount : Z) (w : world) :
  Py.get (JObj fields) "direction" (JStr "down") = inr direction ->
  Py.eq_str direction "down" = false ->
  Py.eq_str direction "up" = false ->
  Py.eq_str direction "top" = false ->
  Py.eq_str direction "bottom" = false ->
  Py.get (JObj fields) "amount" (JInt 300) = inr av ->
  py_int E av = inr amount ->
  w_config w = JObj cfg ->
  Py.assoc "naturalMouseMovement" cfg = Some natural ->
  Py.truthy natural = false ->
  Py.assoc "minDelayMs" cfg = None ->
  Py.assoc "maxDelayMs" cfg = None ->
  exists d,
    handle_scroll E (JObj fields) w
    = (inr (JObj [("success", JBool true); ("direction", direction)]),
       log (EvSleep d) (draws 1 w)).
Proof.
  intros Hdir Hd Hu Ht Hb Hav Hint Hcfg Hnat Hfalsy Hmin Hmax.
  unfold handle_scroll.
  rewrite (bind_run _ _ direction w w) by (unfold lift; now rewrite Hdir).
  rewrite (bind_run _ _ av w w) by (unfold lift; now rewrite Hav).
  rewrite (bind_run _ _ amount w w) by (unfold lift; now rewrite Hint).
  rewrite Hd, Hu, Ht, Hb.
  rewrite (bind_run _ _ tt w w eq_refl).
  rewrite (bind_run _ _ _ w w (config_get_run cfg _ _ w Hcfg)), Hnat, Hfalsy.
  rewrite (bind_run _ _ tt w w eq_refl).
  destruct (apply_human_delay_default_run E cfg w Hcfg Hmin Hmax) as (d & Hrun).
  exists d. rewrite (bind_run _ _ _ _ _ Hrun). reflexivity.
Qed.

(** X23.  A navigation that the driver refuses: when [page.get(url)]
    raises, the response is the error -32000 carrying the driver's
    message and a traceback; the failed call is the only thing that was
    done (no delay, no read of url or title). *)
Theorem navigate_driver_failure
    (E : environment) (req : json) (fields : list (string * json))
    (url : json) (pg : page) (e : exn) (w : world) :
  Py.get req "method" (JStr "") = inr (JStr "navigate") ->
  Py.get req "params" (JObj []) = inr (JObj fields) ->
  Py.get (JObj fields) "url" (JStr "") = inr url ->
  Py.truthy url = true ->
  w_page w = Some pg ->
  drv E unit (w_trace w) (PageGet pg url) = inl e ->
  handle_request E req w
  = (inr tt,
     with_line (log (EvCall (PageGet pg url)) w)
       (error_line_tb (request_id req) (-32000) (str_exn e)
          (format_exc E e))).
Proof.
  intros Hm Hp Hurl Htruthy Hpage Hdrv.
  rewrite (handler_reported E req "navigate" (handle_navigate E)
             (JObj fields) pg w Hm Hp eq_refl Hpage).
  unfold handle_navigate.
  rewrite (bind_run _ _ url w w) by (unfold lift; now rewrite Hurl).
  rewrite Htruthy. cbn [negb].
  unfold bind at 1. rewrite (page_call_run E _ pg w Hpage), Hdrv.
  reflexivity.
Qed.

(** ** Typing *)

(** X24.  [type_text] with [humanTyping] switched off: once the element
    is found, the field is cleared (a failure of [clear] is swallowed),
    the whole text is sent in a single [input] call, and whatever follows
    in the log is sleeping only. *)
Theorem type_text_bulk
    (E : environment) (fields cfg : list (string * json))
    (selector text clear human : json) (pg : page) (el : elem) (w : world) :
  Py.get (JObj fields) "selector" (JStr "") = inr selector ->
  Py.get (JObj fields) "text" (JStr "") = inr text ->
  Py.get (JObj fields) "clear" (JBool true) = inr clear ->
  Py.get (JObj fields) "humanTyping" (JBool true) = inr human ->
  Py.truthy selector = true ->
  Py.truthy clear = true ->
  Py.truthy human = false ->
  w_page w = Some pg ->
  drv E (option elem) (w_trace w) (PageEle pg selector) = inr (Some el) ->
  exists rest,
    w_trace (snd (handle_type_text E (JObj fields) w))
    = (w_trace w ++ EvCall (PageEle pg selector) :: EvCall (ElemClear el)
         :: EvCall (ElemInput el text) :: rest)%list
    /\ forallb is_sleep rest = true.
Proof.
  intros Hsel Htext Hclear Hhuman Hts Htc Hth Hpage Hdrv.
  unfold handle_type_text.
  rewrite (bind_run _ _ selector w w) by (unfold lift; now rewrite Hsel).
  rewrite (bind_run _ _ text w w) by (unfold lift; now rewrite Htext).
  rewrite (bind_run _ _ clear w w) by (unfold lift; now rewrite Hclear).
  rewrite (bind_run _ _ human w w) by (unfold lift; now rewrite Hhuman).
  rewrite Hts. cbn [negb].
  set (w1 := log (EvCall (PageEle pg selector)) w).
  rewrite (bind_run _ _ (Some el) w w1)
    by (rewrite (page_call_run E _ pg w Hpage), Hdrv; reflexivity).
  rewrite Htc, Hth.
  set (w2 := log (EvCall (ElemClear el)) w1).
  rewrite (bind_run _ _ tt w1 w2).
  2:{ unfold try_except, call. fold w2.
      destruct (drv E unit (w_trace w1) (ElemClear el)) as [e|[]];
        reflexivity. }
  set (w3 := log (EvCall (ElemInput el text)) w2).
  assert (Htr3 : w_trace w3
                 = (w_trace w ++ [EvCall (PageEle pg selector);
                                  EvCall (ElemClear el);
                                  EvCall (ElemInput el text)])%list).
  { unfold w3, w2, w1. simpl. rewrite <- !app_assoc. reflexivity. }
  unfold bind at 1, call at 1. fold w3.
  destruct (drv E unit (w_trace w2) (ElemInput el text)) as [e|[]].
  - exists []. split; [exact Htr3 | reflexivity].
  - match goal with
    | |- context [snd (?m w3)] =>
        assert (Hm : emits is_sleep m) by emits_code;
        destruct (Hm w3) as (rest & Hrest & Hall)
    end.
    exists rest. split; [|exact Hall].
    rewrite Hrest, Htr3, <- app_assoc. reflexivity.
Qed.

(** X25.  [type_text] in human-typing mode with a text that cannot be
    iterated (a number, a boolean, null): the field is looked up and
    cleared first, then [human_type] raises [TypeError]; the request
    fails with the field already emptied and nothing typed. *)
Theorem type_text_not_iterable
    (E : environment) (fields : list (string * json))
    (selector text clear human : json) (pg : page) (el : elem) (e : exn)
    (w : world) :
  Py.get (JObj fields) "selector" (JStr "") = inr selector ->
  Py.get (JObj fields) "text" (JStr "") = inr text ->
  Py.get (JObj fields) "clear" (JBool true) = inr clear ->
  Py.get (JObj fields) "humanTyping" (JBool true) = inr human ->
  Py.truthy selector = true ->
  Py.truthy clear = true ->
  Py.truthy human = true ->
  Py.iter text = inl e ->
  w_page w = Some pg ->
  drv E (option elem) (w_trace w) (PageEle pg selector) = inr (Some el) ->
  handle_type_text E (JObj fields) w
  = (inl e,
     log (EvCall (ElemClear el)) (log (EvCall (PageEle pg selector)) w))
  /\ exn_class e = TypeError.
Proof.
  intros Hsel Htext Hclear Hhuman Hts Htc Hth Hiter Hpage Hdrv.
  split.
  - unfold handle_type_text.
    rewrite (bind_run _ _ selector w w) by (unfold lift; now rewrite Hsel).
    rewrite (bind_run _ _ text w w) by (unfold lift; now rewrite Htext).
    rewrite (bind_run _ _ clear w w) by (unfold lift; now rewrite Hclear).
    rewrite (bind_run _ _ human w w) by (unfold lift; now rewrite Hhuman).
    rewrite Hts. cbn [negb].
    set (w1 := log (EvCall (PageEle pg selector)) w).
    rewrite (bind_run _ _ (Some el) w w1)
      by (rewrite (page_call_run E _ pg w Hpage), Hdrv; reflexivity).
    rewrite Htc, Hth.
    set (w2 := log (EvCall (ElemClear el)) w1).
    rewrite (bind_run _ _ tt w1 w2).
    2:{ unfold try_except, call. fold w2.
        destruct (drv E unit (w_trace w1) (ElemClear el)) as [e0|[]];
          reflexivity. }
    unfold bind at 1, human_type, bind at 1, lift at 1. rewrite Hiter.
    reflexivity.
  - destruct text; simpl in Hiter; try discriminate;
      injection Hiter as <-; reflexivity.
Qed.

(** ** Composition *)

(** X26.  After a [close], the dispatcher is back in its initial state:
    the next request for any method that needs a browser, and also for
    [get_page_info], is refused with the "not initialized" error and
    touches nothing. *)
Theorem closed_session_refuses
    (E : environment) (req_close req : json) (name : string) (w : world) :
  Py.get req_close "method" (JStr "") = inr (JStr "close") ->
  Py.get req "method" (JStr "") = inr (JStr name) ->
  In name ready_only_methods \/ name = "get_page_info" ->
  let w1 := snd (handle_request E req_close w) in
  handle_request E req w1
  = (inr tt,
     with_line w1 (error_line (request_id req) (-32000)
                     "Browser not initialized. Call 'init' first.")).
Proof.
  intros Hclose Hm Hname. cbv zeta.
  rewrite (close_request E req_close w Hclose). cbn [snd].
  destruct (get_method_obj _ _ _ Hm) as [fields ->].
  destruct (get_obj fields "params" (JObj [])) as [params Hp].
  assert (Hknown : In name method_names).
  { destruct Hname as [Hin| ->]; simpl in *; tauto. }
  apply (lookup_known E) in Hknown. destruct Hknown as [h Hh].
  rewrite handle_request_obj. unfold try_except.
  rewrite (dispatch_guard E _ name h params _ Hm Hp Hh). cbn [w_page].
  assert (Hg : (negb (name =? "init")%string && true
                && negb (name =? "close")%string)%bool = true).
  { destruct Hname as [Hin| ->]; [|reflexivity]. simpl in Hin.
    repeat (destruct Hin as [<-|Hin]; [reflexivity|]). contradiction. }
  rewrite Hg. reflexivity.
Qed.

(** ** Launch flags *)

(** X27.  Whenever [handle_init] returns, the browser options have been
    given each of the four fixed flags ([--disable-infobars],
    [--disable-extensions], [--no-first-run],
    [--no-default-browser-check]), whatever the configuration says. *)
Theorem init_passes_fixed_flags
    (E : environment) (params : json) (flag : string) (w : world) :
  In flag fixed_flags ->
  match handle_init E params w with
  | (inr _, w') =>
      exists evs,
        w_trace w' = (w_trace w ++ evs)%list
        /\ existsb (is_flag flag) evs = true
  | (inl _, _) => True
  end.
Proof.
  intros Hflag.
  pose (good := fun (A : Type) (m : M A) =>
          forall w0,
            match m w0 with
            | (inr _, w') =>
                exists evs,
                  w_trace w' = (w_trace w0 ++ evs)%list
                  /\ existsb (is_flag flag) evs = true
            | (inl _, _) => True
            end).
  assert (Hlater : forall A B (m : M A) (k : A -> M B),
             emits any_event m -> (forall a, good B (k a)) ->
             good B (bind m k)).
  { intros A B m k Hm Hk w0. unfold bind.
    destruct (Hm w0) as (evs & Htr & _).
    destruct (m w0) as [[e|a] w1]; simpl in Htr; [exact I|].
    specialize (Hk a w1). destruct (k a w1) as [[e|b] w2]; [exact I|].
    destruct Hk as (evs' & Htr' & Hex).
    exists (evs ++ evs')%list. split.
    - rewrite Htr', Htr, app_assoc. reflexivity.
    - rewrite existsb_app, Hex. apply orb_true_r. }
  assert (Hnow : forall B co (k : unit -> M B),
             (forall a, emits any_event (k a)) ->
             good B (bind (call E (OptSetArgument co (JStr flag) None)) k)).
  { intros B co k Hk w0. unfold bind, call.
    destruct (drv E unit (w_trace w0) (OptSetArgument co (JStr flag) None))
      as [e|[]]; [exact I|].
    destruct (Hk tt (log (EvCall (OptSetArgument co (JStr flag) None)) w0))
      as (evs & Htr & _).
    match goal with
    | |- match ?r with _ => _ end =>
        destruct r as [[e|b] w2]; [exact I|]
    end.
    simpl in Htr.
    exists (EvCall (OptSetArgument co (JStr flag) None) :: evs). split.
    - rewrite Htr, <- app_assoc. reflexivity.
    - simpl. rewrite String.eqb_refl. reflexivity. }
  enough (Hgood : good json (handle_init E params)) by apply Hgood.
  unfold handle_init. simpl in Hflag.
  destruct Hflag as [<-|[<-|[<-|[<-|[]]]]];
    repeat (first
              [ apply Hnow; intros ?; emits_code
              | apply Hlater; [solve [emits_code] | intros ?] ]).
Qed.

(** ** The configured delay *)


(** X29.  With a [_config] that is not an object (what an [init] with a
    non-object ["stealth"] leaves behind), [handle_navigate] still loads
    the page and only then fails: reading the delay range raises
    [AttributeError], after the navigation and before any sleep. *)
Theorem navigate_with_broken_config
    (E : environment) (fields : list (string * json)) (url : json)
    (pg : page) (w : world) :
  Py.get (JObj fields) "url" (JStr "") = inr url ->
  Py.truthy url = true ->
  w_page w = Some pg ->
  (forall cfg, w_config w <> JObj cfg) ->
  drv E unit (w_trace w) (PageGet pg url) = inr tt ->
  exists msg,
    handle_navigate E (JObj fields) w
    = (inl (Exn AttributeError msg), log (EvCall (PageGet pg url)) w).
Proof.
  intros Hurl Htruthy Hpage Hcfg Hdrv. unfold handle_navigate.
  rewrite (bind_run _ _ url w w) by (unfold lift; now rewrite Hurl).
  rewrite Htruthy. cbn [negb].
  set (w1 := log (EvCall (PageGet pg url)) w).
  rewrite (bind_run _ _ tt w w1)
    by (rewrite (page_call_run E _ pg w Hpage), Hdrv; reflexivity).
  unfold bind at 1, _apply_human_delay, bind at 1, _get_delay_range,
    bind at 1, config_get at 1, bind at 1, get_config at 1, lift at 1.
  change (w_config w1) with (w_config w).
  destruct (w_config w) as [| | | | | |cfg] eqn:Hc;
    try (eexists; reflexivity).
  exfalso. now apply (Hcfg cfg).
Qed.


(* ================================================================== *)
(** * The further properties at concrete inputs                        *)
(* ================================================================== *)

Lemma only_close_quits_witness :
  exists evs,
    w_trace (snd (handle_request quiet_env (request 1 "init" (JObj []))
                    ready_world))
    = evs
    /\ forallb (fun ev => negb (is_quit ev)) evs = true.
Proof.
  apply (only_close_quits quiet_env (request 1 "init" (JObj [])) ready_world).
  discriminate.
Defined.

Lemma undelayed_methods_never_sleep_witness :
  exists evs,
    w_trace (snd (handle_request quiet_env (request 1 "screenshot" (JObj []))
                    ready_world))
    = evs
    /\ forallb (fun ev => negb (is_sleep ev)) evs = true.
Proof.
  apply (undelayed_methods_never_sleep quiet_env
           (request 1 "screenshot" (JObj [])) "screenshot" ready_world);
    [simpl; tauto | reflexivity].
Defined.


Lemma bezier_curve_points_degenerate_witness :
  bezier_curve_points quiet_env (0, 0)%Q (100, 50)%Q 0 fresh_world
  = (inl (Exn ZeroDivisionError "division by zero"), draws 8 fresh_world)
  /\ bezier_curve_points quiet_env (0, 0)%Q (100, 50)%Q (-1) fresh_world
     = (inr [], draws 8 fresh_world).
Proof.
  split.
  - apply (proj1 (bezier_curve_points_degenerate quiet_env (0, 0)%Q
                    (100, 50)%Q 0 fresh_world)). reflexivity.
  - apply (proj2 (bezier_curve_points_degenerate quiet_env (0, 0)%Q
                    (100, 50)%Q (-1) fresh_world)). lia.
Defined.



Lemma add_human_noise_bounds_witness :
  exists nx ny,
    add_human_noise_to_coords quiet_env 1 500 3 fresh_world
    = (inr (nx, ny), draws 2 fresh_world)
    /\ 0 <= nx /\ 0 <= ny
    /\ Z.max 0 (1 - 3) <= nx <= Z.max 0 (1 + 3)
    /\ Z.max 0 (500 - 3) <= ny <= Z.max 0 (500 + 3).
Proof.
  apply (add_human_noise_bounds quiet_env 1 500 3 fresh_world). lia.
Defined.


Lemma scroll_jitter_edge_cases_witness :
  (exists d w',
      random_scroll_jitter quiet_env None 30 fresh_world = (inr tt, w')
      /\ w_trace w' = [EvSleep d])
  /\ (exists msg,
         random_scroll_jitter quiet_env None (-5) fresh_world
         = (inl (Exn ValueError msg), fresh_world)).
Proof.
  split.
  - apply (proj1 (scroll_jitter_edge_cases quiet_env 30 fresh_world)). lia.
  - apply (proj2 (scroll_jitter_edge_cases quiet_env (-5) fresh_world)). lia.
Defined.

Lemma init_replaces_config_first_witness :
  w_config
    (snd (handle_init quiet_env
            (JObj [("stealth", JObj [("headless", JBool true)])])
            ready_world))
  = JObj [("headless", JBool true)].
Proof.
  apply (init_replaces_config_first quiet_env
           (JObj [("stealth", JObj [("headless", JBool true)])])
           (JObj [("headless", JBool true)]) ready_world);
    reflexivity.
Defined.

Lemma init_without_drissionpage_witness :
  handle_init broken_env (JObj []) fresh_world
  = (inl (Exn RuntimeError
            "DrissionPage is not installed. Run: pip install DrissionPage"),
     log (EvCall ImportDrissionPage) fresh_world).
Proof.
  apply (init_without_drissionpage broken_env (JObj [])
           "No module named 'DrissionPage'" fresh_world).
  reflexivity.
Defined.

Lemma element_not_found_witness :
  let req := request 3 "click_element" (JObj [("selector", JStr "#go")]) in
  let e := Exn ValueError "Element not found: #go" in
  handle_request broken_env req ready_world
  = (inr tt,
     with_line (log (EvCall (PageEle (Page 1) (JStr "#go"))) ready_world)
       (error_line_tb (JInt 3) (-32000) (str_exn e)
          (format_exc broken_env e))).
Proof.
  apply (element_not_found broken_env
           (request 3 "click_element" (JObj [("selector", JStr "#go")]))
           "click_element" [("selector", JStr "#go")] (JStr "#go") (Page 1)
           ready_world);
    try reflexivity.
  now left.
Defined.



Lemma screenshot_fallback_witness :
  handle_screenshot broken_env (JObj []) ready_world
  = (inr (JObj [("base64", JStr "PNG"); ("format", JStr "png");
                ("width", JInt 1920); ("height", JInt 1080)]),
     log (EvCall (PageGetScreenshot (Page 1) (JBool true) None))
       (log (EvCall (PageGetScreenshot (Page 1) (JStr "png")
                       (Some (JBool false)))) ready_world))
  /\ handle_screenshot broken_env (JObj [("format", JStr "bmp")]) ready_world
     = (inl (Exn ValueError "unsupported format"),
        log (EvCall (PageGetScreenshot (Page 1) (JStr "bmp")
                       (Some (JBool false)))) ready_world).
Proof.
  split.
  - apply (proj1 (screenshot_fallback broken_env []
                    [("naturalMouseMovement", JBool false)]
                    (JStr "png") (JBool false) (Page 1)
                    (Exn TypeError "unexpected keyword argument 'full_page'")
                    ready_world eq_refl eq_refl eq_refl eq_refl eq_refl));
      reflexivity.
  - apply (proj2 (screenshot_fallback broken_env [("format", JStr "bmp")]
                    [("naturalMouseMovement", JBool false)]
                    (JStr "bmp") (JBool false) (Page 1)
                    (Exn ValueError "unsupported format")
                    ready_world eq_refl eq_refl eq_refl eq_refl eq_refl)).
    discriminate.
Defined.

Lemma wait_for_selector_never_raises_witness :
  exists result w',
    handle_wait quiet_env (JObj [("selector", JStr "#done")]) fresh_world
    = (inr result, w')
    /\ (result = JObj [("success", JBool true); ("waited_for", JStr "#done")]
        \/ result = JObj [("success", JBool false);
                          ("waited_for", JStr "#done");
                          ("timedOut", JBool true)])
    /\ exists evs, w_trace w' = evs
                   /\ forallb (fun ev => negb (is_sleep ev)) evs = true.
Proof.
  apply (wait_for_selector_never_raises quiet_env [("selector", JStr "#done")]
           (JInt 1000) (JStr "#done") 1000 fresh_world);
    reflexivity.
Defined.


Lemma scroll_unknown_direction_witness :
  exists d,
    handle_scroll quiet_env (JObj [("direction", JStr "left")]) ready_world
    = (inr (JObj [("success", JBool true); ("direction", JStr "left")]),
       log (EvSleep d) (draws 1 ready_world)).
Proof.
  apply (scroll_unknown_direction quiet_env [("direction", JStr "left")]
           [("naturalMouseMovement", JBool false)] (JStr "left") (JInt 300)
           (JBool false) 300 ready_world);
    reflexivity.
Defined.

Lemma navigate_driver_failure_witness :
  let req := request 3 "navigate" (JObj [("url", JStr "http://nowhere")]) in
  let e := Exn OtherException "net::ERR_NAME_NOT_RESOLVED" in
  handle_request broken_env req ready_world
  = (inr tt,
     with_line
       (log (EvCall (PageGet (Page 1) (JStr "http://nowhere"))) ready_world)
       (error_line_tb (JInt 3) (-32000) (str_exn e)
          (format_exc broken_env e))).
Proof.
  apply (navigate_driver_failure broken_env
           (request 3 "navigate" (JObj [("url", JStr "http://nowhere")]))
           [("url", JStr "http://nowhere")] (JStr "http://nowhere") (Page 1)
           (Exn OtherException "net::ERR_NAME_NOT_RESOLVED") ready_world);
    reflexivity.
Defined.

Lemma type_text_bulk_witness :
  exists rest,
    w_trace (snd (handle_type_text quiet_env
                    (JObj [("selector", JStr "#q"); ("text", JStr "hello");
                           ("humanTyping", JBool false)]) ready_world))
    = EvCall (PageEle (Page 1) (JStr "#q")) :: EvCall (ElemClear (Elem 0))
        :: EvCall (ElemInput (Elem 0) (JStr "hello")) :: rest
    /\ forallb is_sleep rest = true.
Proof.
  apply (type_text_bulk quiet_env
           [("selector", JStr "#q"); ("text", JStr "hello");
            ("humanTyping", JBool false)]
           [("naturalMouseMovement", JBool false)]
           (JStr "#q") (JStr "hello") (JBool true) (JBool false) (Page 1)
           (Elem 0) ready_world);
    reflexivity.
Defined.

Lemma type_text_not_iterable_witness :
  let e := Exn TypeError "object is not iterable" in
  handle_type_text quiet_env
    (JObj [("selector", JStr "#q"); ("text", JInt 5)]) ready_world
  = (inl e,
     log (EvCall (ElemClear (Elem 0)))
       (log (EvCall (PageEle (Page 1) (JStr "#q"))) ready_world))
  /\ exn_class e = TypeError.
Proof.
  apply (type_text_not_iterable quiet_env
           [("selector", JStr "#q"); ("text", JInt 5)]
           (JStr "#q") (JInt 5) (JBool true) (JBool true) (Page 1) (Elem 0)
           (Exn TypeError "object is not iterable") ready_world);
    reflexivity.
Defined.

Lemma closed_session_refuses_witness :
  let w1 := snd (handle_request quiet_env (request 1 "close" (JObj []))
                   ready_world) in
  handle_request quiet_env (request 2 "get_page_info" (JObj [])) w1
  = (inr tt,
     with_line w1 (error_line (JInt 2) (-32000)
                     "Browser not initialized. Call 'init' first.")).
Proof.
  apply (closed_session_refuses quiet_env (request 1 "close" (JObj []))
           (request 2 "get_page_info" (JObj [])) "get_page_info" ready_world);
    [reflexivity | reflexivity | now right].
Defined.

Lemma init_passes_fixed_flags_witness :
  match handle_init quiet_env (JObj []) fresh_world with
  | (inr _, w') =>
      exists evs,
        w_trace w' = evs
        /\ existsb (is_flag "--no-first-run") evs = true
  | (inl _, _) => True
  end.
Proof.
  apply (init_passes_fixed_flags quiet_env (JObj []) "--no-first-run"
           fresh_world).
  simpl. tauto.
Defined.


Lemma navigate_with_broken_config_witness :
  exists msg,
    handle_navigate quiet_env (JObj [("url", JStr "https://example.org")])
      (World (Some (Page 1)) (JInt 5) [] [] 0)
    = (inl (Exn AttributeError msg),
       log (EvCall (PageGet (Page 1) (JStr "https://example.org")))
         (World (Some (Page 1)) (JInt 5) [] [] 0)).
Proof.
  apply (navigate_with_broken_config quiet_env
           [("url", JStr "https://example.org")]
           (JStr "https://example.org") (Page 1)
           (World (Some (Page 1)) (JInt 5) [] [] 0));
    try reflexivity.
  intros cfg. discriminate.
Defined.

